(** * The precision plugin of pytorch_lightning: a shallow embedding

    Source: [src/pytorch_lightning/plugins/precision/precision_plugin.py],
    class [PrecisionPlugin].

    The plugin is a thin layer of hooks: every method either returns its
    arguments, or calls into a collaborator (the model, the trainer, the
    optimizer, a tensor, the [grad_norm] utility), or brackets a body with a
    context manager.  The embedding therefore has three layers:

    - [Py]: the Python values and exceptions the methods rely on;
    - [Generators]: generator frames, [contextlib.contextmanager] and the
      [with] statement, for [master_params] and the step contexts;
    - [Plugin]: a state, exception and trace monad in which the other
      methods are written, the collaborators being parameters of the
      section.

    The definitions come first, then a small training setup on which the
    definitions can be run, then the properties. *)

From Stdlib Require Import ZArith List String Bool Lia.
From Stdlib Require Import Floats.SpecFloat.
Import ListNotations.

Set Implicit Arguments.

(* ================================================================== *)
(** * Python values and exceptions *)
(* ================================================================== *)

Module Py.

(** A Python [float] is an IEEE binary64 value, kept in canonical form. *)
Definition prec : Z := 53.
Definition emax : Z := 1024.

(** A scalar of type [Union[int, float, str]]. *)
Inductive scalar : Type :=
| Int (z : Z)
| Float (f : spec_float)
| Str (s : string).

(** The values passed around as [Any]: [None], scalars, tensors, and other
    objects known by identity. *)
Inductive value : Type :=
| NoneV
| Scalar (x : scalar)
| TensorV (id : nat)
| ObjectV (id : nat).

Definition is_None (v : value) : bool :=
  match v with NoneV => true | _ => false end.

(** An exception object: class name, message and, when it was raised
    [from] another exception, its [__cause__]. Two exception objects with
    the same class, message and cause are not told apart: [is] on
    exceptions is equality of these three. *)
Inductive exn : Type :=
| Exn (cls : string) (msg : string)
| ExnFrom (cls : string) (msg : string) (cause : exn).

Definition exn_class (e : exn) : string :=
  match e with Exn c _ | ExnFrom c _ _ => c end.

Definition exn_cause (e : exn) : option exn :=
  match e with Exn _ _ => None | ExnFrom _ _ c => Some c end.

Fixpoint exn_eqb (a b : exn) {struct a} : bool :=
  match a, b with
  | Exn c1 m1, Exn c2 m2 => String.eqb c1 c2 && String.eqb m1 m2
  | ExnFrom c1 m1 k1, ExnFrom c2 m2 k2 =>
      String.eqb c1 c2 && String.eqb m1 m2 && exn_eqb k1 k2
  | _, _ => false
  end.

Definition TypeError (msg : string) : exn := Exn "TypeError" msg.
Definition ValueError (msg : string) : exn := Exn "ValueError" msg.
Definition OverflowError (msg : string) : exn := Exn "OverflowError" msg.
Definition AttributeError (msg : string) : exn := Exn "AttributeError" msg.
Definition RuntimeError (msg : string) : exn := Exn "RuntimeError" msg.

Definition isinstance (e : exn) (cls : string) : bool :=
  String.eqb (exn_class e) cls.

(** How a call ends. *)
Inductive outcome (A : Type) : Type :=
| Returns (a : A)
| Raises (e : exn).
Arguments Raises {A} e.

(** ** [float(x)] and [float(x) == -1] *)

(** [float(z)] for an [int]: round to nearest even; an [int] that rounds to
    2^1024 or beyond raises OverflowError. *)
Definition float_of_int (z : Z) : outcome spec_float :=
  match binary_normalize prec emax z 0 false with
  | S754_infinity _ => Raises (OverflowError "int too large to convert to float")
  | f => Returns f
  end.

Section Float.
(** The parser of float literals behind [float(str)] is a builtin:
    [None] stands for a string it rejects. *)
Variable float_of_str : string -> option spec_float.

Definition float (x : scalar) : outcome spec_float :=
  match x with
  | Int z => float_of_int z
  | Float f => Returns f
  | Str s =>
      match float_of_str s with
      | Some f => Returns f
      | None => Raises (ValueError "could not convert string to float")
      end
  end.
End Float.

(** The float [-1.0]. *)
Definition minus_one : spec_float := S754_finite true 4503599627370496 (-52).

(** [f == -1] for a float [f]: both sides are compared as floats, a NaN
    is equal to nothing. *)
Definition eq_minus_one (f : spec_float) : bool := SFeqb f minus_one.

(** ** Binding the arguments of a call

    Keyword arguments are an association list in call order; the keys of a
    [**kwargs] dictionary are distinct. *)
Definition kwargs := list (string * value).

Fixpoint lookup (k : string) (kw : kwargs) : option value :=
  match kw with
  | [] => None
  | (k', v) :: rest => if String.eqb k k' then Some v else lookup k rest
  end.

Fixpoint remove (k : string) (kw : kwargs) : kwargs :=
  match kw with
  | [] => []
  | (k', v) :: rest =>
      if String.eqb k k' then remove k rest else (k', v) :: remove k rest
  end.

Definition has_key (k : string) (kw : kwargs) : bool :=
  match lookup k kw with Some _ => true | None => false end.

End Py.

Import Py.

(* ================================================================== *)
(** * Optimizers *)
(* ================================================================== *)

(** A parameter group of a [torch.optim.Optimizer]: the dictionary always
    has the key ["params"], a list of tensors, next to the group's
    hyperparameters. *)
Record param_group (P : Type) : Type := {
  params : list P;
  hyperparameters : kwargs
}.

Record Optimizer (P : Type) : Type := {
  optimizer_id : nat;
  param_groups : list (param_group P)
}.

(* ================================================================== *)
(** * Generators, [contextlib.contextmanager] and [with] *)
(* ================================================================== *)

Section Generators.

(** The state the surrounding program threads through a generator. *)
Variable W : Type.

(** How a suspended generator is resumed: [next(gen)] or
    [gen.throw(value)]. *)
Inductive resume : Type :=
| Next
| Throw (value : exn).

(** One run of a generator frame, up to its next suspension: it reaches a
    [yield], its body ends, or an exception leaves the body. *)
Inductive frame (Y : Type) : Type :=
| Yielded (y : Y) (w : W) (k : resume -> W -> frame Y)
| Finished (w : W)
| Failed (e : exn) (w : W).
Arguments Finished {Y} w.
Arguments Failed {Y} e w.

(** A generator function without arguments: its body, not yet started. *)
Definition generator (Y : Type) : Type := W -> frame Y.

(** A [StopIteration] that leaves a generator body reaches the caller as a
    RuntimeError whose cause it is (PEP 479). *)
Definition pep479 (e : exn) : exn :=
  if isinstance e "StopIteration"
  then ExnFrom "RuntimeError" "generator raised StopIteration" e
  else e.

Definition boundary {Y} (f : frame Y) : frame Y :=
  match f with
  | Failed e w => Failed (pep479 e) w
  | _ => f
  end.

(** What the caller of [next] and [throw] sees. *)
Definition gen_start {Y} (g : generator Y) (w : W) : frame Y :=
  boundary (g w).
Definition gen_next {Y} (k : resume -> W -> frame Y) (w : W) : frame Y :=
  boundary (k Next w).
Definition gen_throw {Y} (k : resume -> W -> frame Y) (value : exn) (w : W)
  : frame Y :=
  boundary (k (Throw value) w).

(** ** Consuming a generator *)

(** The statement [yield y]: suspend; [next] goes on with [rest], [throw]
    raises at the [yield]. *)
Definition yield {Y} (y : Y) (rest : W -> frame Y) : W -> frame Y :=
  fun w =>
    Yielded y w (fun r w' =>
      match r with
      | Next => rest w'
      | Throw e => Failed e w'
      end).

(** [yield from l] for a list [l], then [rest]. *)
Fixpoint yield_from {Y} (l : list Y) (rest : W -> frame Y) : W -> frame Y :=
  match l with
  | [] => rest
  | y :: l' => yield y (yield_from l' rest)
  end.

(** [list(gen)] of a generator whose next run is [f]: the items, in the
    order they are yielded, and how the iteration ends. *)
Fixpoint list_ {Y} (f : frame Y) : list Y * outcome unit * W :=
  match f with
  | Yielded y w k =>
      let '(ys, o, w') := list_ (k Next w) in (y :: ys, o, w')
  | Finished w => ([], Returns tt, w)
  | Failed e w => ([], Raises (pep479 e), w)
  end.

(** [list(itertools.islice(gen, n))], the consumer doing [consume] with
    each item before it asks for the next one. [run] is what the next call
    of [next] runs: the generator is resumed [n] times at most, and not at
    all once [n] items are out. *)
Fixpoint islice {Y} (n : nat) (consume : Y -> W -> W) (run : W -> frame Y)
  (w : W) : list Y * outcome unit * W :=
  match n with
  | O => ([], Returns tt, w)
  | S n' =>
      match run w with
      | Yielded y w1 k =>
          let '(ys, o, w') := islice n' consume (k Next) (consume y w1) in
          (y :: ys, o, w')
      | Finished w1 => ([], Returns tt, w1)
      | Failed e w1 => ([], Raises (pep479 e), w1)
      end
  end.

(** The state after the consumer has been handed the items [ys]. *)
Definition consumed {P} (consume : P -> W -> W) (ys : list P) (w : W) : W :=
  fold_left (fun w y => consume y w) ys w.

(** ** [contextlib.contextmanager] *)

(** A generator used as a context manager yields [None]. *)
Definition suspended : Type := resume -> W -> frame unit.

(** [__enter__]: run the generator to its first [yield]. *)
Definition cm_enter (g : generator unit) (w : W) : (exn + suspended) * W :=
  match gen_start g w with
  | Yielded _ w' k => (inr k, w')
  | Finished w' => (inl (RuntimeError "generator didn't yield"), w')
  | Failed e w' => (inl e, w')
  end.

(** [__exit__(typ, value, traceback)], as in CPython 3.7 and later:
    [value] is the exception that left the body, if any; the result says
    whether it is suppressed. Without an exception the generator must
    stop. With one, it is thrown in at the [yield]: a generator that
    stops has handled it; one that raises the exception thrown in (or the
    RuntimeError PEP 479 made of a thrown [StopIteration]) lets it
    through; any other exception is raised in its place. *)
Definition cm_exit (k : suspended) (value : option exn) (w : W)
  : (exn + bool) * W :=
  match value with
  | None =>
      match gen_next k w with
      | Finished w' => (inr false, w')
      | Yielded _ w' _ => (inl (RuntimeError "generator didn't stop"), w')
      | Failed e w' => (inl e, w')
      end
  | Some v =>
      match gen_throw k v w with
      | Finished w' => (inr true, w')
      | Failed e w' =>
          if isinstance e "RuntimeError" then
            if exn_eqb e v then (inr false, w')
            else if isinstance v "StopIteration" &&
                    match exn_cause e with
                    | Some c => exn_eqb c v
                    | None => false
                    end
                 then (inr false, w')
                 else (inl e, w')
          else if exn_eqb e v then (inr false, w') else (inl e, w')
      | Yielded _ w' _ =>
          (inl (RuntimeError "generator didn't stop after throw()"), w')
      end
  end.

(** ** The [with] statement *)

(** A body run under [with]: it returns or raises, and leaves a state. *)
Definition block (A : Type) : Type := W -> outcome A * W.

(** [with contextmanager(g)(): body]. The value is [None] when the body
    raised and the manager suppressed the exception. *)
Definition with_ {A} (g : generator unit) (body : block A) : block (option A) :=
  fun w =>
    match cm_enter g w with
    | (inl e, w1) => (Raises e, w1)
    | (inr k, w1) =>
        match body w1 with
        | (Returns a, w2) =>
            match cm_exit k None w2 with
            | (inl e, w3) => (Raises e, w3)
            | (inr _, w3) => (Returns (Some a), w3)
            end
        | (Raises e, w2) =>
            match cm_exit k (Some e) w2 with
            | (inl e', w3) => (Raises e', w3)
            | (inr true, w3) => (Returns None, w3)
            | (inr false, w3) => (Raises e, w3)
            end
        end
    end.

(** The generator body [with cm(): yield], where [cm] is the context
    manager made from [g]: enter [g]; suspend; on [next] leave the [with]
    normally, on [throw] leave it with the exception thrown in. *)
Definition with_yield (g : generator unit) : generator unit :=
  fun w =>
    match cm_enter g w with
    | (inl e, w1) => Failed e w1
    | (inr k, w1) =>
        Yielded tt w1 (fun r w2 =>
          match r with
          | Next =>
              match cm_exit k None w2 with
              | (inl e, w3) => Failed e w3
              | (inr _, w3) => Finished w3
              end
          | Throw e =>
              match cm_exit k (Some e) w2 with
              | (inl e', w3) => Failed e' w3
              | (inr true, w3) => Finished w3
              | (inr false, w3) => Failed e w3
              end
          end)
    end.

(** ** The parameter view and the step contexts of [PrecisionPlugin] *)

(** [for group in groups: yield from group["params"]] *)
Fixpoint master_params_loop {P} (groups : list (param_group P))
  : generator P :=
  match groups with
  | [] => fun w => Finished w
  | group :: rest => yield_from (params group) (master_params_loop rest)
  end.

(** [PrecisionPlugin.master_params] *)
Definition master_params {P} (optimizer : Optimizer P) : generator P :=
  master_params_loop (param_groups optimizer).

(** [PrecisionPlugin.forward_context]: a single [yield]. *)
Definition forward_context : generator unit :=
  yield tt (fun w => Finished w).

(** The four step contexts call [self.forward_context()]: the method is
    looked up on [self], so a subclass that overrides it changes what
    they enter. *)
Section StepContexts.
Variable self_forward_context : generator unit.

Definition train_step_context : generator unit :=
  with_yield self_forward_context.
Definition val_step_context : generator unit :=
  with_yield self_forward_context.
Definition test_step_context : generator unit :=
  with_yield self_forward_context.
Definition predict_step_context : generator unit :=
  with_yield self_forward_context.
End StepContexts.

End Generators.

Arguments Finished {W Y} w.
Arguments Failed {W Y} e w.

(* ================================================================== *)
(** * The objects the plugin works with *)
(* ================================================================== *)

(** A tensor is known by its identity. *)
Definition Tensor : Type := nat.

(** [pytorch_lightning.utilities.GradClipAlgorithmType] *)
Inductive GradClipAlgorithmType : Type :=
| VALUE
| NORM.

Record Logger : Type := {
  group_separator : string
}.

Record AcceleratorConnector : Type := {
  use_deepspeed : bool
}.

(** The attributes of a [pl.Trainer] the plugin reads. They are run-level
    settings, fixed while a step runs. [lightning_module] is the identity of
    the module the trainer drives; [logger] is [None] when logging is off. *)
Record Trainer : Type := {
  track_grad_norm : scalar;
  logger : option Logger;
  gradient_clip_val : option scalar;
  gradient_clip_algorithm : GradClipAlgorithmType;
  lightning_module : nat;
  accelerator_connector : AcceleratorConnector
}.

(** A model handed to the plugin: a [pl.LightningModule], or another module
    that carries the same attributes. *)
Record Module : Type := {
  module_id : nat;
  is_LightningModule : bool;
  automatic_optimization : bool;
  model_trainer : Trainer
}.

(** [self]: the class attribute [precision] and the trainer the plugin is
    attached to. *)
Record PrecisionPlugin : Type := {
  precision : scalar;
  self_trainer : Trainer
}.

(** The result of [grad_norm]: norms by name, in insertion order. *)
Definition norms : Type := list (string * spec_float).

Definition truthy (d : norms) : bool :=
  match d with [] => false | _ :: _ => true end.

Inductive hook_arg : Type :=
| ArgTensor (t : Tensor)
| ArgOptimizer (o : Optimizer Tensor)
| ArgInt (z : Z).

(** The calls the plugin makes into its collaborators. *)
Inductive call : Type :=
| CallHook (trainer : Trainer) (hook_name : string) (args : list hook_arg)
| ModelBackward (model : Module) (closure_loss : Tensor)
    (optimizer : option (Optimizer Tensor)) (args : list value) (kw : kwargs)
| TensorBackward (tensor : value) (args : list value) (kw : kwargs)
| OptimizerStep (optimizer : Optimizer Tensor) (kw : kwargs)
| LogGradNorm (module : nat) (grad_norm_dict : norms)
| ConfigureGradientClipping (model : Module) (optimizer : Optimizer Tensor)
    (optimizer_idx : Z) (gradient_clip_val : option scalar)
    (gradient_clip_algorithm : GradClipAlgorithmType).

(** ** Binding the arguments of [_run_backward]

    [def _run_backward(self, tensor, model, *args, **kwargs)], called as a
    bound method with the positional arguments [positional] and the keyword
    arguments [keywords]. A keyword that names a parameter already filled
    is refused, then a parameter left empty is; the messages are those of
    CPython 3.9. *)

Fixpoint first_conflict (filled : list string) (keywords : kwargs)
  : option string :=
  match keywords with
  | [] => None
  | (k, _) :: rest =>
      if existsb (String.eqb k) filled then Some k
      else first_conflict filled rest
  end.

Definition bind_run_backward (positional : list value) (keywords : kwargs)
  : outcome (value * value * list value * kwargs) :=
  let '(tensor, model, args, filled) :=
    match positional with
    | [] => (None, None, [], ["self"])
    | [t] => (Some t, None, [], ["self"; "tensor"])
    | t :: m :: rest => (Some t, Some m, rest, ["self"; "tensor"; "model"])
    end%string in
  match first_conflict filled keywords with
  | Some k =>
      Raises (TypeError
        ("_run_backward() got multiple values for argument '" ++ k ++ "'"))
  | None =>
      let tensor :=
        match tensor with Some t => Some t | None => lookup "tensor" keywords end in
      let model :=
        match model with Some m => Some m | None => lookup "model" keywords end in
      match tensor, model with
      | Some t, Some m =>
          Returns (t, m, args, remove "tensor" (remove "model" keywords))
      | Some _, None =>
          Raises (TypeError
            "_run_backward() missing 1 required positional argument: 'model'")
      | None, Some _ =>
          Raises (TypeError
            "_run_backward() missing 1 required positional argument: 'tensor'")
      | None, None =>
          Raises (TypeError
            "_run_backward() missing 2 required positional arguments: 'tensor' and 'model'")
      end
  end.

(* ================================================================== *)
(** * The methods of [PrecisionPlugin] *)
(* ================================================================== *)

Section Plugin.

(** The state of the collaborators: gradients, logged values, optimizer
    state, whatever the hooks of the model keep. *)
Variable X : Type.

(** The part of the heap the plugin itself writes: the attribute
    [_current_fx_name] of each module, by module identity. *)
Record Store : Type := {
  current_fx_name : nat -> option string;
  collaborators : X
}.

Definition set_fx (m : nat) (v : option string) (s : Store) : Store :=
  {| current_fx_name := fun m' => if Nat.eqb m' m then v else current_fx_name s m';
     collaborators := collaborators s |}.

(** What is observed of a run: the entry into [_track_grad_norm] and into
    [clip_gradients], the two methods [pre_optimizer_step] calls on
    [self]; the calls made into collaborators, each with the store the
    callee finds; and the calls of the [grad_norm] utility. *)
Inductive event : Type :=
| Entered (method : string)
| Called (c : call) (seen : Store)
| GradNormCalled (module : nat) (norm_type : scalar) (separator : string).

(** What a collaborator does when called: it may change the store at will,
    and may raise. All these calls return [None]. *)
Variable respond : call -> Store -> Store * option exn.

(** [pytorch_lightning.utilities.grad_norm]: it reads the gradients of the
    module and returns the norms, or raises; it writes nothing. *)
Variable grad_norm : nat -> scalar -> string -> Store -> outcome norms.

(** The parser behind [float(str)]. *)
Variable float_of_str : string -> option spec_float.

(** ** The monad: state, exceptions, and the trace of events *)

Record run (A : Type) : Type := Run {
  result : outcome A;
  trace : list event;
  final : Store
}.

Definition M (A : Type) : Type := Store -> run A.

Definition ret {A} (a : A) : M A :=
  fun s => {| result := Returns a; trace := []; final := s |}.

Definition raise {A} (e : exn) : M A :=
  fun s => {| result := Raises e; trace := []; final := s |}.

Definition bind {A B} (m : M A) (f : A -> M B) : M B :=
  fun s =>
    let r := m s in
    match result r with
    | Returns a =>
        let r' := f a (final r) in
        {| result := result r'; trace := trace r ++ trace r'; final := final r' |}
    | Raises e => {| result := Raises e; trace := trace r; final := final r |}
    end.

Local Notation "x <- m ;; k" := (bind m (fun x => k))
  (at level 61, m at next level, right associativity).
Local Notation "m ;; k" := (bind m (fun _ => k))
  (at level 61, right associativity).

Definition lift {A} (o : outcome A) : M A :=
  match o with
  | Returns a => ret a
  | Raises e => raise e
  end.

Definition entered (method : string) : M unit :=
  fun s => {| result := Returns tt; trace := [Entered method]; final := s |}.

Definition do_call (c : call) : M unit :=
  fun s =>
    let '(s', o) := respond c s in
    {| result := match o with None => Returns tt | Some e => Raises e end;
       trace := [Called c s];
       final := s' |}.

Definition call_grad_norm (module : nat) (norm_type : scalar) (sep : string)
  : M norms :=
  fun s =>
    {| result := grad_norm module norm_type sep s;
       trace := [GradNormCalled module norm_type sep];
       final := s |}.

Definition get_fx (m : nat) : M (option string) :=
  fun s => {| result := Returns (current_fx_name s m); trace := []; final := s |}.

Definition put_fx (m : nat) (v : option string) : M unit :=
  fun s => {| result := Returns tt; trace := []; final := set_fx m v s |}.

(** ** [connect] *)

Definition connect {Mod Opt Sch : Type} (self : PrecisionPlugin)
  (model : Mod) (optimizers : list Opt) (lr_schedulers : list Sch)
  : Mod * list Opt * list Sch :=
  (model, optimizers, lr_schedulers).

(** ** [backward] and [_run_backward] *)

Definition _run_backward (self : PrecisionPlugin) (tensor : value)
  (model : value) (args : list value) (kw : kwargs) : M unit :=
  do_call (TensorBackward tensor args kw).

(** The call of [self._run_backward] with the positional arguments
    [positional] and the keyword arguments [keywords] unpacked. *)
Definition call_run_backward (self : PrecisionPlugin)
  (positional : list value) (keywords : kwargs) : M unit :=
  bound <- lift (bind_run_backward positional keywords) ;;
  let '(tensor, model, args, kw) := bound in
  _run_backward self tensor model args kw.

Definition backward (self : PrecisionPlugin) (model : option Module)
  (closure_loss : Tensor) (optimizer : option (Optimizer Tensor))
  (args : list value) (kw : kwargs) : M unit :=
  match model with
  | Some m =>
      if is_LightningModule m
      then do_call (ModelBackward m closure_loss optimizer args kw)
      else call_run_backward self (TensorV closure_loss :: args) kw
  | None => call_run_backward self (TensorV closure_loss :: args) kw
  end.

(** ** [_track_grad_norm] *)

Definition _track_grad_norm (self : PrecisionPlugin) (trainer : Trainer)
  : M unit :=
  entered "_track_grad_norm" ;;
  f <- lift (float float_of_str (track_grad_norm trainer)) ;;
  if eq_minus_one f then ret tt
  else
    sep <- match logger trainer with
           | Some l => ret (group_separator l)
           | None => raise (AttributeError
               "'NoneType' object has no attribute 'group_separator'")
           end ;;
    grad_norm_dict <- call_grad_norm (lightning_module trainer)
                        (track_grad_norm trainer) sep ;;
    if truthy grad_norm_dict then
      prev_fx <- get_fx (lightning_module trainer) ;;
      put_fx (lightning_module trainer) (Some "on_before_optimizer_step"%string) ;;
      do_call (LogGradNorm (lightning_module trainer) grad_norm_dict) ;;
      put_fx (lightning_module trainer) prev_fx
    else ret tt.

(** ** [clip_gradients] *)

Definition clip_gradients (self : PrecisionPlugin)
  (optimizer : Optimizer Tensor) (optimizer_idx : Z)
  (clip_val : option scalar) (gradient_clip_algorithm : GradClipAlgorithmType)
  (model : option Module) : M unit :=
  entered "clip_gradients" ;;
  if use_deepspeed (accelerator_connector (self_trainer self))
     || match model with None => true | Some _ => false end
  then ret tt
  else
    match model with
    | Some m =>
        do_call (ConfigureGradientClipping m optimizer optimizer_idx
                   clip_val gradient_clip_algorithm)
    | None =>
        raise (AttributeError
          "'NoneType' object has no attribute 'configure_gradient_clipping'")
    end.

(** ** [pre_optimizer_step] *)

Definition pre_optimizer_step (self : PrecisionPlugin) (model : Module)
  (optimizer : Optimizer Tensor) (optimizer_idx : Z) : M unit :=
  let trainer := model_trainer model in
  (if Z.eqb optimizer_idx 0 then _track_grad_norm self trainer else ret tt) ;;
  clip_gradients self optimizer optimizer_idx (gradient_clip_val trainer)
    (gradient_clip_algorithm trainer) (Some model) ;;
  if is_LightningModule model
  then do_call (CallHook trainer "on_before_optimizer_step"
                  [ArgOptimizer optimizer; ArgInt optimizer_idx])
  else ret tt.

(** ** [optimizer_step] *)

Definition optimizer_step (self : PrecisionPlugin) (model : Module)
  (optimizer : Optimizer Tensor) (optimizer_idx : Z) (closure_result : value)
  (kw : kwargs) : M unit :=
  let skipped_backward := is_None closure_result in
  if negb (automatic_optimization model) || negb skipped_backward
  then do_call (OptimizerStep optimizer kw)
  else ret tt.

(** ** What is observed in a trace *)

(** The calls into collaborators, in order. *)
Fixpoint calls_of (tr : list event) : list call :=
  match tr with
  | [] => []
  | Called c _ :: rest => c :: calls_of rest
  | _ :: rest => calls_of rest
  end.

Definition is_entered (method : string) (ev : event) : bool :=
  match ev with
  | Entered m => String.eqb m method
  | _ => false
  end.

(** How many times a method of the plugin was entered. *)
Definition times_entered (method : string) (tr : list event) : nat :=
  List.length (filter (is_entered method) tr).

(** The events of gradient-norm tracking: the tracker is entered, the
    norms are computed, the norms are reported. *)
Definition is_norm_event (ev : event) : bool :=
  match ev with
  | Entered m => String.eqb m "_track_grad_norm"
  | GradNormCalled _ _ _ => true
  | Called (LogGradNorm _ _) _ => true
  | _ => false
  end.

(** The events of gradient clipping: the clip gate is entered, the clipping
    hook of the model is called. *)
Definition is_clip_event (ev : event) : bool :=
  match ev with
  | Entered m => String.eqb m "clip_gradients"
  | Called (ConfigureGradientClipping _ _ _ _ _) _ => true
  | _ => false
  end.

(** The optimizer consumes the gradients: [optimizer.step]. *)
Definition is_step_event (ev : event) : bool :=
  match ev with
  | Called (OptimizerStep _ _) _ => true
  | _ => false
  end.

(** Every event that satisfies [p] comes strictly before every event that
    satisfies [q]. *)
Definition all_before (p q : event -> bool) (tr : list event) : Prop :=
  forall i j ei ej,
    nth_error tr i = Some ei -> nth_error tr j = Some ej ->
    p ei = true -> q ej = true -> (i < j)%nat.

(** ** Names for the proofs *)

(** The tracking configuration is the sentinel: [float(cfg) == -1] holds. *)
Definition disabled (cfg : scalar) : Prop :=
  exists f, float float_of_str cfg = Returns f /\ eq_minus_one f = true.

(** The first statement of [pre_optimizer_step]. *)
Definition maybe_track (self : PrecisionPlugin) (trainer : Trainer)
  (optimizer_idx : Z) : M unit :=
  if Z.eqb optimizer_idx 0 then _track_grad_norm self trainer else ret tt.

(** The last statement of [pre_optimizer_step]: the hook
    [on_before_optimizer_step], for a LightningModule. *)
Definition notify (model : Module) (optimizer : Optimizer Tensor)
  (optimizer_idx : Z) : M unit :=
  if is_LightningModule model
  then do_call (CallHook (model_trainer model) "on_before_optimizer_step"
                  [ArgOptimizer optimizer; ArgInt optimizer_idx])
  else ret tt.

(** The other calls of [pre_optimizer_step]: the hooks of the trainer. *)
Definition is_hook_event (ev : event) : bool :=
  match ev with
  | Called (CallHook _ _ _) _ => true
  | _ => false
  end.

End Plugin.

(* ================================================================== *)
(** * The other hooks of [PrecisionPlugin] *)
(* ================================================================== *)

Section OtherHooks.

Variable X : Type.
Variable respond : call -> Store X -> Store X * option exn.

(** [Tensor.detach]: a tensor cut from the graph; it changes nothing else. *)
Variable detach : Tensor -> Tensor.

(** [torch.nn.utils.clip_grad_value_] and [torch.nn.utils.clip_grad_norm_],
    as functions of the parameters their argument yields and of the
    threshold: they clamp or rescale gradients in place, or raise. They are
    not among the calls recorded in the trace. *)
Variable clip_grad_value_ : list Tensor -> scalar -> Store X -> Store X * option exn.
Variable clip_grad_norm_ : list Tensor -> scalar -> Store X -> Store X * option exn.

Local Notation "m ;; k" := (bind m (fun _ => k))
  (at level 61, right associativity).

(** ** [pre_backward] and [post_backward] *)



(** ** [clip_grad_by_value] and [clip_grad_by_norm] *)

(** A utility of torch given an iterable: it iterates to the end, then the
    gradients of what it was given are clipped. An exception that leaves the
    iterable leaves the utility. *)
Definition over_iterable
  (utility : list Tensor -> scalar -> Store X -> Store X * option exn)
  (parameters : generator (Store X) Tensor) (clip_val : scalar) : M X unit :=
  fun s =>
    let '(ps, o, s1) := list_ (parameters s) in
    match o with
    | Raises e => {| result := Raises e; trace := []; final := s1 |}
    | Returns _ =>
        let '(s2, x) := utility ps clip_val s1 in
        {| result := match x with None => Returns tt | Some e => Raises e end;
           trace := [];
           final := s2 |}
    end.

Definition clip_grad_by_value (self : PrecisionPlugin)
  (optimizer : Optimizer Tensor) (clip_val : scalar) : M X unit :=
  let parameters := master_params optimizer in
  over_iterable clip_grad_value_ parameters clip_val.

Definition clip_grad_by_norm (self : PrecisionPlugin)
  (optimizer : Optimizer Tensor) (clip_val : scalar) : M X unit :=
  let parameters := master_params optimizer in
  over_iterable clip_grad_norm_ parameters clip_val.

(** ** What is observed in a trace, continued *)

(** The hooks of the trainer that were called, in order. *)
Fixpoint hooks_of (tr : list (event X)) : list (string * list hook_arg) :=
  match tr with
  | [] => []
  | Called (CallHook _ name args) _ :: rest => (name, args) :: hooks_of rest
  | _ :: rest => hooks_of rest
  end.

(** The calls of the model's clipping hook, in order. *)
Fixpoint clip_calls_of (tr : list (event X)) : list call :=
  match tr with
  | [] => []
  | Called (ConfigureGradientClipping m o i v a) _ :: rest =>
      ConfigureGradientClipping m o i v a :: clip_calls_of rest
  | _ :: rest => clip_calls_of rest
  end.

(** The calls of [grad_norm], in order: module, norm type, separator. *)
Fixpoint grad_norm_calls_of (tr : list (event X))
  : list (nat * scalar * string) :=
  match tr with
  | [] => []
  | GradNormCalled _ m nt sep :: rest => (m, nt, sep) :: grad_norm_calls_of rest
  | _ :: rest => grad_norm_calls_of rest
  end.

(** Collaborators that leave [_current_fx_name] of every module alone. *)
Definition fx_untouched : Prop :=
  forall (c : call) (s : Store X) (m : nat),
    current_fx_name (fst (respond c s)) m = current_fx_name s m.

(** ** The backward pass of one step *)


End OtherHooks.

(* ================================================================== *)
(** * A small training setup, for the examples *)
(* ================================================================== *)

Module Demo.

(** The floats [0.5] and [2.5]. *)
Definition half : spec_float := S754_finite false 4503599627370496 (-53).
Definition two_and_a_half : spec_float :=
  S754_finite false 5629499534213120 (-51).

(** An optimizer with two parameter groups, of three and of two tensors. *)
Definition optimizer : Optimizer Tensor :=
  {| optimizer_id := 1;
     param_groups :=
       [ {| params := [10; 11; 12];
            hyperparameters := [("lr"%string, Scalar (Float half))] |};
         {| params := [13; 14]; hyperparameters := [] |} ] |}.

(** A trainer that tracks the 2-norm and clips by norm at 0.5. *)
Definition trainer : Trainer :=
  {| track_grad_norm := Int 2;
     logger := Some {| group_separator := "/" |};
     gradient_clip_val := Some (Float half);
     gradient_clip_algorithm := NORM;
     lightning_module := 0;
     accelerator_connector := {| use_deepspeed := false |} |}.

(** The same trainer with norm tracking switched off. *)
Definition trainer_untracked : Trainer :=
  {| track_grad_norm := Int (-1);
     logger := logger trainer;
     gradient_clip_val := gradient_clip_val trainer;
     gradient_clip_algorithm := gradient_clip_algorithm trainer;
     lightning_module := lightning_module trainer;
     accelerator_connector := accelerator_connector trainer |}.

(** A LightningModule in automatic optimization, and one in manual
    optimization. *)
Definition model : Module :=
  {| module_id := 0;
     is_LightningModule := true;
     automatic_optimization := true;
     model_trainer := trainer |}.

Definition manual_model : Module :=
  {| module_id := 0;
     is_LightningModule := true;
     automatic_optimization := false;
     model_trainer := trainer |}.

Definition plugin : PrecisionPlugin :=
  {| precision := Int 32; self_trainer := trainer |}.

(** The module is inside [training_step] when the step begins. *)
Definition store : Store unit :=
  {| current_fx_name := fun _ => Some "training_step"%string;
     collaborators := tt |}.

(** Collaborators that return and touch nothing. *)
Definition quiet (c : call) (s : Store unit) : Store unit * option exn :=
  (s, None).

(** A model whose [log_grad_norm] leaves its own name in
    [_current_fx_name]. *)
Definition meddling (c : call) (s : Store unit) : Store unit * option exn :=
  match c with
  | LogGradNorm m _ => (set_fx m (Some "log_grad_norm"%string) s, None)
  | _ => (s, None)
  end.

(** A model whose [log_grad_norm] raises. *)
Definition log_refused : exn :=
  Exn "MisconfigurationException" "logging is not allowed here".

Definition failing_log (c : call) (s : Store unit) : Store unit * option exn :=
  match c with
  | LogGradNorm _ _ => (s, Some log_refused)
  | _ => (s, None)
  end.

(** Gradients of total norm 2.5, and a module without gradients. *)
Definition grad_norm (module : nat) (norm_type : scalar) (sep : string)
  (s : Store unit) : outcome norms :=
  Returns [("grad_2.0_norm_total"%string, two_and_a_half)].

Definition no_grad_norm (module : nat) (norm_type : scalar) (sep : string)
  (s : Store unit) : outcome norms :=
  Returns [].

(** [float("inf")] is infinity; nothing else is parsed here. *)
Definition float_of_str (s : string) : option spec_float :=
  if String.eqb s "inf" then Some (S754_infinity false) else None.

(** A state for the generators: the log of what the consumer was handed. *)
Definition handed : Type := list Tensor.

Definition hand_over (p : Tensor) (log : handed) : handed := log ++ [p].

(** A [forward_context] override that records entering and leaving, in the
    manner of an autocast scope. *)
Definition scoped_forward_context : generator (list string) unit :=
  fun w =>
    Yielded tt (w ++ ["enter"%string]) (fun r w' =>
      match r with
      | Next => Finished (w' ++ ["exit"%string])
      | Throw e => Failed e (w' ++ ["exit"%string])
      end).

(** A body that fails. *)
Definition failing_body : block (list string) nat :=
  fun w => (Raises (ValueError "bad batch"), w ++ ["body"%string]).

End Demo.

(** The same setup for the other hooks. *)
Module DemoHooks.


(** Keyword arguments of a backward call. *)
Definition keywords : kwargs := [("retain_graph"%string, Scalar (Int 1))].

(** A module that is not a LightningModule. *)
Definition plain_model : Module :=
  {| module_id := 5;
     is_LightningModule := false;
     automatic_optimization := true;
     model_trainer := Demo.trainer |}.

End DemoHooks.

(* ================================================================== *)
(** * Properties of the parameter view and of the step contexts *)
(* ================================================================== *)

Section GeneratorFacts.

Variable W : Type.

(** ** Exceptions *)

Lemma exn_eqb_refl (e : exn) : exn_eqb e e = true.
Proof.
  induction e as [c m|c m k IH]; cbn; rewrite !String.eqb_refl; auto.
Qed.

Lemma exn_eqb_eq (a b : exn) : exn_eqb a b = true -> a = b.
Proof.
  revert b. induction a as [c m|c m k IH]; intros [c' m'|c' m' k']; cbn;
    try discriminate; intros H.
  - apply andb_prop in H as [Hc Hm].
    apply String.eqb_eq in Hc, Hm. subst. reflexivity.
  - apply andb_prop in H as [H Hk]. apply andb_prop in H as [Hc Hm].
    apply String.eqb_eq in Hc, Hm. apply IH in Hk. subst. reflexivity.
Qed.

Lemma pep479_not_StopIteration (e : exn) :
  isinstance (pep479 e) "StopIteration" = false.
Proof.
  unfold pep479. destruct (isinstance e "StopIteration") eqn:H; auto.
Qed.

Lemma pep479_idempotent (e : exn) : pep479 (pep479 e) = pep479 e.
Proof.
  unfold pep479 at 1. rewrite pep479_not_StopIteration. reflexivity.
Qed.

(** ** [master_params] *)

Lemma list_yield_from P (l : list P) (rest : generator W P) (w : W) :
  list_ (yield_from l rest w)
  = let '(ys, o, w') := list_ (rest w) in (l ++ ys, o, w').
Proof.
  induction l as [|y l IH]; cbn.
  - destruct (list_ (rest w)) as [[ys o] w']. reflexivity.
  - rewrite IH. destruct (list_ (rest w)) as [[ys o] w']. reflexivity.
Qed.

Lemma list_master_params_loop P (groups : list (param_group P)) (w : W) :
  list_ (master_params_loop groups w)
  = (List.concat (map (@params P) groups), Returns tt, w).
Proof.
  induction groups as [|g rest IH]; cbn; [reflexivity|].
  rewrite list_yield_from, IH. reflexivity.
Qed.

Lemma islice_yield_from P (consume : P -> W -> W) (l : list P)
  (rest : generator W P) :
  forall (n : nat) (w : W),
    islice n consume (yield_from l rest) w
    = let '(ys, o, w') :=
        islice (n - List.length l) consume rest
          (consumed consume (firstn n l) w) in
      (firstn n l ++ ys, o, w').
Proof.
  induction l as [|y l IH]; intros n w.
  - cbn [yield_from List.length firstn]. rewrite Nat.sub_0_r, firstn_nil.
    cbn. destruct (islice n consume rest w) as [[ys o] w']. reflexivity.
  - destruct n as [|n]; [reflexivity|].
    cbn [yield_from yield islice]. rewrite IH.
    cbn [List.length Nat.sub firstn consumed fold_left].
    fold (consumed consume (firstn n l) (consume y w)).
    destruct (islice _ consume rest _) as [[ys o] w']. reflexivity.
Qed.

Lemma islice_master_params_loop P (consume : P -> W -> W)
  (groups : list (param_group P)) :
  forall (n : nat) (w : W),
    let all := List.concat (map (@params P) groups) in
    islice n consume (master_params_loop groups) w
    = (firstn n all, Returns tt, consumed consume (firstn n all) w).
Proof.
  induction groups as [|g rest IH]; intros n w; cbv zeta.
  - cbn [map List.concat master_params_loop]. rewrite firstn_nil.
    destruct n; reflexivity.
  - cbn [map List.concat master_params_loop].
    rewrite islice_yield_from, IH, firstn_app.
    unfold consumed. rewrite fold_left_app. reflexivity.
Qed.

(** C2. [master_params] yields the parameters of the optimizer's groups,
    group after group in the order of [param_groups] and, within a group,
    in the order of its list: consumed to the end it gives exactly the
    concatenation of the groups' lists, nothing left out, moved, repeated
    or merged, and the iteration ends without an exception. It is lazy:
    asked for [n] items, it hands out the first [n] of that concatenation
    one at a time, the consumer running between two of them. *)
Theorem master_params_is_concatenation (P : Type) (optimizer : Optimizer P)
  (w : W) :
  let all := List.concat (map (@params P) (param_groups optimizer)) in
  list_ (master_params optimizer w) = (all, Returns tt, w)
  /\ forall (n : nat) (consume : P -> W -> W),
       islice n consume (master_params optimizer) w
       = (firstn n all, Returns tt, consumed consume (firstn n all) w).
Proof.
  cbv zeta. unfold master_params. split.
  - apply list_master_params_loop.
  - intros n consume. apply islice_master_params_loop.
Qed.

(** ** The step contexts *)

(** An exception re-raised by a [with] inside a generator comes back to
    the [__exit__] of that generator as the exception thrown in. *)
Lemma reraised_is_recognised (v : exn) :
  (if isinstance (pep479 v) "RuntimeError"
   then
     if exn_eqb (pep479 v) v then true
     else isinstance v "StopIteration" &&
          match exn_cause (pep479 v) with
          | Some c => exn_eqb c v
          | None => false
          end
   else exn_eqb (pep479 v) v) = true.
Proof.
  unfold pep479. destruct (isinstance v "StopIteration") eqn:Hsi.
  - cbn [exn_cause]. rewrite exn_eqb_refl.
    change (isinstance (ExnFrom "RuntimeError" "generator raised StopIteration" v)
              "RuntimeError") with true.
    cbn [andb].
    match goal with |- (if ?b then _ else _) = _ => destruct b end;
      reflexivity.
  - rewrite exn_eqb_refl. destruct (isinstance v "RuntimeError"); reflexivity.
Qed.

Lemma with_yield_is_transparent A (g : generator W unit) (body : block W A)
  (w : W) :
  with_ (with_yield g) body w = with_ g body w.
Proof.
  unfold with_ at 1. unfold cm_enter at 1. unfold gen_start, with_yield.
  unfold with_ at 1.
  destruct (cm_enter g w) as [[e|k] w1] eqn:Henter; cbn [boundary].
  - (* the manager does not enter: its exception is not a StopIteration *)
    assert (He : pep479 e = e).
    { unfold cm_enter, gen_start in Henter.
      destruct (g w) as [[] w0 k0|w0|e0 w0]; cbn [boundary] in Henter;
        inversion Henter; subst; [reflexivity|apply pep479_idempotent]. }
    rewrite He. reflexivity.
  - destruct (body w1) as [[a|v] w2].
    + (* the body returns *)
      unfold cm_exit at 1. unfold gen_next.
      destruct (cm_exit k None w2) as [[e|b] w3] eqn:Hexit; cbn [boundary];
        [|reflexivity].
      assert (He : pep479 e = e).
      { unfold cm_exit, gen_next in Hexit.
        destruct (k Next w2) as [[] w0 k0|w0|e0 w0]; cbn [boundary] in Hexit;
          inversion Hexit; subst; [reflexivity|apply pep479_idempotent]. }
      rewrite He. reflexivity.
    + (* the body raises [v] *)
      unfold cm_exit at 1. unfold gen_throw.
      destruct (cm_exit k (Some v) w2) as [[e|[|]] w3] eqn:Hexit;
        cbn [boundary].
      * (* the manager raises [e] in its place *)
        assert (He : pep479 e = e
                     /\ (if isinstance e "RuntimeError"
                         then
                           if exn_eqb e v then true
                           else isinstance v "StopIteration" &&
                                match exn_cause e with
                                | Some c => exn_eqb c v
                                | None => false
                                end
                         else exn_eqb e v) = false
                     \/ e = RuntimeError "generator didn't stop after throw()").
        { unfold cm_exit, gen_throw in Hexit.
          destruct (k (Throw v) w2) as [[] w0 k0|w0|e0 w0];
            cbn [boundary] in Hexit.
          - inversion Hexit; subst. right. reflexivity.
          - inversion Hexit.
          - left. destruct (isinstance (pep479 e0) "RuntimeError") eqn:Hrt.
            + destruct (exn_eqb (pep479 e0) v) eqn:Heq; [inversion Hexit|].
              destruct (isinstance v "StopIteration" && _) eqn:Hc;
                inversion Hexit; subst.
              split; [apply pep479_idempotent|]. rewrite Hrt, Heq. exact Hc.
            + destruct (exn_eqb (pep479 e0) v) eqn:Heq; inversion Hexit; subst.
              split; [apply pep479_idempotent|]. rewrite Hrt. exact Heq. }
        destruct He as [[He Hdiff]|He].
        -- rewrite He.
           destruct (isinstance e "RuntimeError").
           ++ destruct (exn_eqb e v); [discriminate|].
              rewrite Hdiff. reflexivity.
           ++ rewrite Hdiff. reflexivity.
        -- subst e.
           change (pep479 (RuntimeError "generator didn't stop after throw()"))
             with (RuntimeError "generator didn't stop after throw()").
           change (isinstance
                     (RuntimeError "generator didn't stop after throw()")
                     "RuntimeError") with true.
           cbv iota.
           destruct (exn_eqb _ v) eqn:Heq.
           ++ apply exn_eqb_eq in Heq. subst v. reflexivity.
           ++ change (exn_cause
                        (RuntimeError "generator didn't stop after throw()"))
                with (@None exn).
              rewrite andb_false_r. reflexivity.
      * (* the manager suppresses [v] *)
        reflexivity.
      * (* the manager lets [v] through *)
        pose proof (reraised_is_recognised v) as Hsame.
        destruct (isinstance (pep479 v) "RuntimeError").
        -- destruct (exn_eqb (pep479 v) v); [reflexivity|].
           rewrite Hsame. reflexivity.
        -- rewrite Hsame. reflexivity.
Qed.

(** [forward_context] of the base class does nothing around the body. *)
Lemma with_forward_context A (body : block W A) (w : W) :
  with_ (@forward_context W) body w
  = match body w with
    | (Returns a, w') => (Returns (Some a), w')
    | (Raises e, w') => (Raises e, w')
    end.
Proof.
  unfold with_, forward_context, cm_enter, gen_start, yield. cbn.
  destruct (body w) as [[a|v] w']; cbn; [reflexivity|].
  pose proof (reraised_is_recognised v) as Hsame.
  destruct (isinstance (pep479 v) "RuntimeError").
  - destruct (exn_eqb (pep479 v) v); [reflexivity|].
    rewrite Hsame. reflexivity.
  - rewrite Hsame. reflexivity.
Qed.

(** C8. Around any body, and from any state, each of [train_step_context],
    [val_step_context], [test_step_context] and [predict_step_context]
    behaves as [forward_context] does: it enters [self.forward_context()],
    runs the body once, and leaves [self.forward_context()] whether the
    body returns or raises, with the same result, the same exception and
    the same final state as [with self.forward_context()] itself. With
    the [forward_context] of the base class all five leave the body's
    result, exception and state as they are. *)
Theorem step_contexts_are_forward_context (A : Type)
  (self_forward_context : generator W unit) (body : block W A) (w : W) :
  let reference := with_ self_forward_context body w in
  let plain :=
    match body w with
    | (Returns a, w') => (Returns (Some a), w')
    | (Raises e, w') => (Raises e, w')
    end in
  with_ (train_step_context self_forward_context) body w = reference
  /\ with_ (val_step_context self_forward_context) body w = reference
  /\ with_ (test_step_context self_forward_context) body w = reference
  /\ with_ (predict_step_context self_forward_context) body w = reference
  /\ with_ (@forward_context W) body w = plain
  /\ with_ (train_step_context (@forward_context W)) body w = plain
  /\ with_ (val_step_context (@forward_context W)) body w = plain
  /\ with_ (test_step_context (@forward_context W)) body w = plain
  /\ with_ (predict_step_context (@forward_context W)) body w = plain.
Proof.
  cbv zeta.
  unfold train_step_context, val_step_context, test_step_context,
    predict_step_context.
  rewrite !with_yield_is_transparent, with_forward_context.
  repeat split.
Qed.

End GeneratorFacts.

(* ================================================================== *)
(** * Properties of the hooks *)
(* ================================================================== *)

Section PluginFacts.

Variable X : Type.
Variable respond : call -> Store X -> Store X * option exn.
Variable grad_norm : nat -> scalar -> string -> Store X -> outcome norms.
Variable float_of_str : string -> option spec_float.

(** ** The monad *)

Lemma bind_cases A B (m : M X A) (f : A -> M X B) s :
  bind m f s
  = match result (m s) with
    | Returns a =>
        {| result := result (f a (final (m s)));
           trace := trace (m s) ++ trace (f a (final (m s)));
           final := final (f a (final (m s))) |}
    | Raises e =>
        {| result := Raises e; trace := trace (m s); final := final (m s) |}
    end.
Proof. reflexivity. Qed.

Lemma do_call_trace c s : trace (do_call respond c s) = [Called c s].
Proof. unfold do_call. destruct (respond c s). reflexivity. Qed.

(** ** Traces: counting and ordering *)

Lemma times_entered_app method (t1 t2 : list (event X)) :
  times_entered method (t1 ++ t2) =
  (times_entered method t1 + times_entered method t2)%nat.
Proof.
  unfold times_entered. rewrite filter_app, length_app. reflexivity.
Qed.

(** A trace split in two parts, the first without [q] and the second
    without [p], has every [p] before every [q]. *)
Lemma all_before_split (p q : event X -> bool) (t1 t2 : list (event X)) :
  forallb (fun ev => negb (q ev)) t1 = true ->
  forallb (fun ev => negb (p ev)) t2 = true ->
  all_before p q (t1 ++ t2).
Proof.
  intros H1 H2 i j ei ej Hi Hj Hp Hq.
  rewrite forallb_forall in H1, H2.
  assert (Hi1 : (i < List.length t1)%nat).
  { destruct (Nat.lt_ge_cases i (List.length t1)) as [Hlt|Hge]; [exact Hlt|].
    rewrite nth_error_app2 in Hi by exact Hge.
    apply nth_error_In in Hi. apply H2 in Hi.
    rewrite Hp in Hi. discriminate. }
  assert (Hj2 : (List.length t1 <= j)%nat).
  { destruct (Nat.lt_ge_cases j (List.length t1)) as [Hlt|Hge]; [|exact Hge].
    rewrite nth_error_app1 in Hj by exact Hlt.
    apply nth_error_In in Hj. apply H1 in Hj.
    rewrite Hq in Hj. discriminate. }
  lia.
Qed.

(** ** [connect] *)

(** C9. [connect] returns its three arguments, the model, the list of
    optimizers and the list of schedulers, unchanged and in that order,
    whatever they are and whatever the plugin is. *)
Theorem connect_is_identity (Mod Opt Sch : Type) (self : PrecisionPlugin)
  (model : Mod) (optimizers : list Opt) (lr_schedulers : list Sch) :
  connect self model optimizers lr_schedulers
  = (model, optimizers, lr_schedulers).
Proof. reflexivity. Qed.

(** ** [optimizer_step] *)

(** C1. [optimizer_step] calls [optimizer.step], once and with the keyword
    arguments it was given, unless the model is in automatic optimization
    and the closure result is [None]; in that one case it calls nothing.
    So the step runs for every closure result other than [None], and for
    [None] under manual optimization. *)
Theorem optimizer_step_iff (self : PrecisionPlugin) (model : Module)
  (optimizer : Optimizer Tensor) (optimizer_idx : Z)
  (closure_result : value) (kw : kwargs) (s : Store X) :
  let r := optimizer_step respond self model optimizer optimizer_idx
             closure_result kw s in
  (calls_of (trace r) = [OptimizerStep optimizer kw]
   <-> ~ (automatic_optimization model = true /\ closure_result = NoneV))
  /\ (r = {| result := Returns tt; trace := []; final := s |}
      <-> automatic_optimization model = true /\ closure_result = NoneV)
  /\ (closure_result <> NoneV ->
      trace r = [Called (OptimizerStep optimizer kw) s])
  /\ (closure_result = NoneV -> automatic_optimization model = false ->
      trace r = [Called (OptimizerStep optimizer kw) s]).
Proof.
  assert (Hloud : forall c,
    do_call respond c s <> {| result := Returns tt; trace := []; final := s |}).
  { intros c H. apply (f_equal (@trace X unit)) in H.
    rewrite do_call_trace in H. discriminate. }
  unfold optimizer_step.
  destruct (automatic_optimization model) eqn:Hauto;
    destruct closure_result eqn:Hres; cbn [is_None negb orb];
    rewrite ?do_call_trace; cbn [calls_of ret trace];
    repeat match goal with |- _ /\ _ => split | |- _ <-> _ => split end;
    intros;
    repeat match goal with H : _ /\ _ |- _ => destruct H end;
    try reflexivity; try congruence;
    try (exfalso; eapply Hloud; eassumption);
    try (intros [? ?]; congruence);
    try match goal with H : ~ _ |- _ => exfalso; apply H; split; reflexivity end;
    try (split; reflexivity).
Qed.

(** ** [clip_gradients] *)

(** C4. [clip_gradients] does nothing when the DeepSpeed backend is in use
    or when no model is given: no collaborator is called, the store is
    left as it was and the call returns. In every other case it calls
    [model.configure_gradient_clipping] exactly once, with the optimizer,
    the index, the clip value and the algorithm it was given, and nothing
    else. *)
Theorem clip_gradients_gate (self : PrecisionPlugin)
  (optimizer : Optimizer Tensor) (optimizer_idx : Z)
  (clip_val : option scalar) (algorithm : GradClipAlgorithmType)
  (model : option Module) (s : Store X) :
  let r := clip_gradients respond self optimizer optimizer_idx clip_val
             algorithm model s in
  (use_deepspeed (accelerator_connector (self_trainer self)) = true
   \/ model = None ->
   calls_of (trace r) = [] /\ final r = s /\ result r = Returns tt)
  /\ (forall m,
      use_deepspeed (accelerator_connector (self_trainer self)) = false ->
      model = Some m ->
      trace r = [Entered X "clip_gradients";
                 Called (ConfigureGradientClipping m optimizer optimizer_idx
                           clip_val algorithm) s]
      /\ calls_of (trace r)
         = [ConfigureGradientClipping m optimizer optimizer_idx clip_val
              algorithm]).
Proof.
  unfold clip_gradients. split.
  - intros [Hds | Hnone].
    + rewrite Hds. cbn. repeat split.
    + subst model. rewrite orb_true_r. cbn. repeat split.
  - intros m Hds Hm. subst model. rewrite Hds. cbn [orb].
    unfold do_call, bind. cbn.
    match goal with |- context [respond ?c ?s0] => destruct (respond c s0) end.
    cbn. split; reflexivity.
Qed.

(** ** [_track_grad_norm] *)

Local Notation "'track'" := (_track_grad_norm respond grad_norm float_of_str).
Local Notation "'hook_name'" := ("on_before_optimizer_step"%string).

(** The runs of the tracker, case by case. *)
Lemma track_cases (self : PrecisionPlugin) (trainer : Trainer) (s : Store X) :
  let m := lightning_module trainer in
  let cfg := track_grad_norm trainer in
  let r := track self trainer s in
  let here := [Entered X "_track_grad_norm"] in
  match float float_of_str cfg with
  | Raises e => r = {| result := Raises e; trace := here; final := s |}
  | Returns f =>
      if eq_minus_one f
      then r = {| result := Returns tt; trace := here; final := s |}
      else
        match logger trainer with
        | None =>
            exists e, r = {| result := Raises e; trace := here; final := s |}
        | Some l =>
            let computed :=
              here ++ [GradNormCalled X m cfg (group_separator l)] in
            match grad_norm m cfg (group_separator l) s with
            | Raises e =>
                r = {| result := Raises e; trace := computed; final := s |}
            | Returns d =>
                if truthy d then
                  let s1 := set_fx m (Some hook_name) s in
                  let reported := computed ++ [Called (LogGradNorm m d) s1] in
                  match respond (LogGradNorm m d) s1 with
                  | (s2, None) =>
                      r = {| result := Returns tt; trace := reported;
                             final := set_fx m (current_fx_name s m) s2 |}
                  | (s2, Some e) =>
                      r = {| result := Raises e; trace := reported;
                             final := s2 |}
                  end
                else
                  r = {| result := Returns tt; trace := computed; final := s |}
            end
        end
  end.
Proof.
  cbv zeta. unfold _track_grad_norm, bind, entered, lift. cbn.
  destruct (float float_of_str (track_grad_norm trainer)) as [f|e]; cbn;
    [|reflexivity].
  destruct (eq_minus_one f); cbn; [reflexivity|].
  destruct (logger trainer) as [l|]; cbn; [|eexists; reflexivity].
  destruct (grad_norm _ _ _ s) as [d|e]; cbn; [|reflexivity].
  destruct (truthy d); cbn; [|reflexivity].
  unfold do_call.
  match goal with |- context [respond ?c ?s0] => destruct (respond c s0) as [s2 [e|]] end;
    reflexivity.
Qed.

Lemma disabled_int : disabled float_of_str (Int (-1)).
Proof. exists minus_one. split; reflexivity. Qed.

Lemma disabled_float : disabled float_of_str (Float minus_one).
Proof. exists minus_one. split; reflexivity. Qed.

(** C5. With the tracking configuration equal to [-1] (the [int] [-1], the
    float [-1.0], or anything [float] maps to it) the tracker returns at
    once: [grad_norm] is not called, the logging hook is not called, the
    store is untouched. And when tracking is on but [grad_norm] returns an
    empty dictionary, the logging hook is not called, the store is
    untouched and the tracker returns without raising. *)
Theorem track_grad_norm_silent (self : PrecisionPlugin) (trainer : Trainer)
  (s : Store X) :
  let r := track self trainer s in
  (disabled float_of_str (track_grad_norm trainer) ->
   r = {| result := Returns tt;
          trace := [Entered X "_track_grad_norm"];
          final := s |})
  /\ (track_grad_norm trainer = Int (-1) ->
      r = {| result := Returns tt;
             trace := [Entered X "_track_grad_norm"];
             final := s |})
  /\ (forall f l,
      float float_of_str (track_grad_norm trainer) = Returns f ->
      eq_minus_one f = false ->
      logger trainer = Some l ->
      grad_norm (lightning_module trainer) (track_grad_norm trainer)
        (group_separator l) s = Returns [] ->
      result r = Returns tt /\ calls_of (trace r) = [] /\ final r = s).
Proof.
  cbv zeta.
  assert (Hoff : disabled float_of_str (track_grad_norm trainer) ->
    track self trainer s
    = {| result := Returns tt;
         trace := [Entered X "_track_grad_norm"];
         final := s |}).
  { intros [f [Hf Heq]].
    pose proof (track_cases self trainer s) as H. cbv zeta in H.
    rewrite Hf, Heq in H. exact H. }
  split; [exact Hoff|]. split.
  - intros Hcfg. apply Hoff. rewrite Hcfg. apply disabled_int.
  - intros f l Hf Hne Hl Hd.
    pose proof (track_cases self trainer s) as H. cbv zeta in H.
    rewrite Hf, Hne, Hl, Hd in H. cbn [truthy] in H. rewrite H. cbn.
    repeat split.
Qed.

(** C10. Whenever the tracker reports norms, the logging hook finds
    [_current_fx_name] of the trainer's module set to
    ["on_before_optimizer_step"], the rest of the store being as the
    tracker found it; and once the tracker has returned, the attribute is
    what it was before the call, whatever the hook did to it. *)
Theorem track_grad_norm_restores_fx_name (self : PrecisionPlugin)
  (trainer : Trainer) (s : Store X) :
  let m := lightning_module trainer in
  let r := track self trainer s in
  (forall d seen, In (Called (LogGradNorm m d) seen) (trace r) ->
     seen = set_fx m (Some hook_name) s
     /\ current_fx_name seen m = Some hook_name)
  /\ (result r = Returns tt ->
      current_fx_name (final r) m = current_fx_name s m).
Proof.
  cbv zeta.
  pose proof (track_cases self trainer s) as H. cbv zeta in H.
  assert (Hfx : forall v (s0 : Store X),
    current_fx_name (set_fx (lightning_module trainer) v s0)
      (lightning_module trainer) = v).
  { intros v s0. unfold set_fx. cbn. rewrite Nat.eqb_refl. reflexivity. }
  destruct (float float_of_str (track_grad_norm trainer)) as [f|e].
  2:{ rewrite H. cbn. split; [intros d seen [Hin|[]]; discriminate|discriminate]. }
  destruct (eq_minus_one f).
  { rewrite H. cbn. split; [intros d seen [Hin|[]]; discriminate|reflexivity]. }
  destruct (logger trainer) as [l|].
  2:{ destruct H as [e H]. rewrite H. cbn.
      split; [intros d seen [Hin|[]]; discriminate|discriminate]. }
  destruct (grad_norm _ _ _ s) as [d|e].
  2:{ rewrite H. cbn.
      split; [intros d seen [Hin|[Hin|[]]]; discriminate|discriminate]. }
  destruct (truthy d).
  2:{ rewrite H. cbn.
      split; [intros d' seen [Hin|[Hin|[]]]; discriminate|reflexivity]. }
  cbv zeta in H.
  destruct (respond _ _) as [s2 [e|]]; rewrite H; cbn.
  - split; [|discriminate].
    intros d' seen [Hin|[Hin|[Hin|[]]]]; try discriminate.
    injection Hin as _ Hseen. subst seen. split; [reflexivity|apply Hfx].
  - split; [|intros _; apply Hfx].
    intros d' seen [Hin|[Hin|[Hin|[]]]]; try discriminate.
    injection Hin as _ Hseen. subst seen. split; [reflexivity|apply Hfx].
Qed.

(** ** [pre_optimizer_step] *)

Local Notation "'pre'" :=
  (pre_optimizer_step respond grad_norm float_of_str).
Local Notation "'clip'" := (clip_gradients respond).
Local Notation "'maybe_track'" :=
  (maybe_track respond grad_norm float_of_str).
Local Notation "'notify'" := (notify respond).

(** What the tracker leaves in the trace: its own entry, once, and events
    of norm tracking only. *)
Lemma track_trace (self : PrecisionPlugin) (trainer : Trainer) (s : Store X) :
  let tr := trace (track self trainer s) in
  times_entered "_track_grad_norm" tr = 1%nat
  /\ times_entered "clip_gradients" tr = 0%nat
  /\ forallb (@is_norm_event X) tr = true.
Proof.
  cbv zeta.
  pose proof (track_cases self trainer s) as H. cbv zeta in H.
  destruct (float float_of_str (track_grad_norm trainer)) as [f|e];
    [|rewrite H; cbn; auto].
  destruct (eq_minus_one f); [rewrite H; cbn; auto|].
  destruct (logger trainer) as [l|];
    [|destruct H as [e H]; rewrite H; cbn; auto].
  destruct (grad_norm _ _ _ s) as [d|e]; [|rewrite H; cbn; auto].
  destruct (truthy d); [|rewrite H; cbn; auto].
  cbv zeta in H.
  destruct (respond _ _) as [s2 [e|]]; rewrite H; cbn; auto.
Qed.

(** What the clip gate leaves in the trace: its own entry, once, and events
    of clipping only. *)
Lemma clip_trace (self : PrecisionPlugin) (optimizer : Optimizer Tensor)
  (optimizer_idx : Z) (clip_val : option scalar)
  (algorithm : GradClipAlgorithmType) (model : option Module) (s : Store X) :
  let tr := trace (clip self optimizer optimizer_idx clip_val algorithm model s) in
  times_entered "clip_gradients" tr = 1%nat
  /\ times_entered "_track_grad_norm" tr = 0%nat
  /\ forallb (@is_clip_event X) tr = true.
Proof.
  cbv zeta. unfold clip_gradients, bind, do_call.
  destruct (use_deepspeed _); destruct model as [m|]; cbn; auto.
  match goal with |- context [respond ?c ?s0] => destruct (respond c s0) end.
  cbn. auto.
Qed.

Lemma notify_trace (model : Module) (optimizer : Optimizer Tensor)
  (optimizer_idx : Z) (s : Store X) :
  let tr := trace (notify model optimizer optimizer_idx s) in
  times_entered "clip_gradients" tr = 0%nat
  /\ times_entered "_track_grad_norm" tr = 0%nat
  /\ forallb (@is_hook_event X) tr = true.
Proof.
  cbv zeta. unfold notify.
  destruct (is_LightningModule model); [|cbn; auto].
  rewrite do_call_trace. cbn. auto.
Qed.

Lemma maybe_track_trace (self : PrecisionPlugin) (trainer : Trainer)
  (optimizer_idx : Z) (s : Store X) :
  let tr := trace (maybe_track self trainer optimizer_idx s) in
  times_entered "_track_grad_norm" tr
    = (if Z.eqb optimizer_idx 0 then 1 else 0)%nat
  /\ times_entered "clip_gradients" tr = 0%nat
  /\ forallb (@is_norm_event X) tr = true.
Proof.
  cbv zeta. unfold maybe_track.
  destruct (Z.eqb optimizer_idx 0); [apply track_trace|cbn; auto].
Qed.

(** The trace of [pre_optimizer_step], in its three parts. *)
Lemma pre_cases (self : PrecisionPlugin) (model : Module)
  (optimizer : Optimizer Tensor) (optimizer_idx : Z) (s : Store X) :
  let trainer := model_trainer model in
  let r := pre self model optimizer optimizer_idx s in
  let r1 := maybe_track self trainer optimizer_idx s in
  match result r1 with
  | Raises e =>
      r = {| result := Raises e; trace := trace r1; final := final r1 |}
  | Returns _ =>
      let r2 := clip self optimizer optimizer_idx (gradient_clip_val trainer)
                  (gradient_clip_algorithm trainer) (Some model) (final r1) in
      match result r2 with
      | Raises e =>
          r = {| result := Raises e; trace := trace r1 ++ trace r2;
                 final := final r2 |}
      | Returns _ =>
          let r3 := notify model optimizer optimizer_idx (final r2) in
          r = {| result := result r3;
                 trace := trace r1 ++ trace r2 ++ trace r3;
                 final := final r3 |}
      end
  end.
Proof.
  cbv zeta.
  change (pre self model optimizer optimizer_idx s)
    with (bind (maybe_track self (model_trainer model) optimizer_idx)
            (fun _ =>
               bind (clip self optimizer optimizer_idx
                       (gradient_clip_val (model_trainer model))
                       (gradient_clip_algorithm (model_trainer model))
                       (Some model))
                 (fun _ => notify model optimizer optimizer_idx)) s).
  rewrite bind_cases.
  destruct (result (maybe_track _ _ _ s)) as [[]|e]; [|reflexivity].
  rewrite bind_cases.
  destruct (result (clip_gradients _ _ _ _ _ _ _ _)) as [[]|e]; reflexivity.
Qed.

(** The three parts, each with its kind of event; the parts after a raise
    are empty. *)
Lemma pre_trace (self : PrecisionPlugin) (model : Module)
  (optimizer : Optimizer Tensor) (optimizer_idx : Z) (s : Store X) :
  exists tn tc th,
    trace (pre self model optimizer optimizer_idx s) = tn ++ tc ++ th
    /\ forallb (@is_norm_event X) tn = true
    /\ forallb (@is_clip_event X) tc = true
    /\ forallb (@is_hook_event X) th = true.
Proof.
  pose proof (pre_cases self model optimizer optimizer_idx s) as H.
  cbv zeta in H.
  pose proof (maybe_track_trace self (model_trainer model) optimizer_idx s)
    as (_ & _ & Hn). cbv zeta in Hn.
  destruct (result (maybe_track _ _ _ s)) as [[]|e].
  2:{ rewrite H. cbn [trace]. exists (trace (maybe_track self (model_trainer model) optimizer_idx s)), [], [].
      rewrite !app_nil_r. auto. }
  match type of H with
  | context [result ?r2] =>
      pose proof (clip_trace self optimizer optimizer_idx
        (gradient_clip_val (model_trainer model))
        (gradient_clip_algorithm (model_trainer model)) (Some model)
        (final (maybe_track self (model_trainer model) optimizer_idx s)))
        as (_ & _ & Hc); cbv zeta in Hc;
      destruct (result r2) as [[]|e]
  end.
  2:{ rewrite H. cbn [trace]. do 2 eexists. exists [].
      rewrite app_nil_r. auto. }
  rewrite H. cbn [trace]. do 3 eexists. split; [reflexivity|].
  split; [exact Hn|]. split; [exact Hc|]. apply notify_trace.
Qed.

Lemma forallb_weaken (p q : event X -> bool) (l : list (event X)) :
  (forall ev, p ev = true -> q ev = true) ->
  forallb p l = true -> forallb q l = true.
Proof.
  intros Hpq. rewrite !forallb_forall. intros H ev Hin. auto.
Qed.

Lemma norm_is_no_clip (ev : event X) :
  is_norm_event ev = true -> negb (is_clip_event ev) = true.
Proof.
  destruct ev as [m|c seen|]; cbn; [|destruct c; cbn; congruence|reflexivity].
  destruct (String.eqb_spec m "_track_grad_norm"); [subst|discriminate].
  reflexivity.
Qed.

Lemma clip_is_no_norm (ev : event X) :
  is_clip_event ev = true -> negb (is_norm_event ev) = true.
Proof.
  destruct ev as [m|c seen|]; cbn; [|destruct c; cbn; congruence|discriminate].
  destruct (String.eqb_spec m "clip_gradients"); [subst|discriminate].
  reflexivity.
Qed.

Lemma hook_is_no_norm (ev : event X) :
  is_hook_event ev = true -> negb (is_norm_event ev) = true.
Proof. destruct ev as [m|c seen|]; cbn; try discriminate. destruct c; cbn; congruence. Qed.

Lemma step_is_no_norm (ev : event X) :
  is_step_event ev = true -> negb (is_norm_event ev) = true.
Proof. destruct ev as [m|c seen|]; cbn; try discriminate. destruct c; cbn; congruence. Qed.

Lemma step_is_no_clip (ev : event X) :
  is_step_event ev = true -> negb (is_clip_event ev) = true.
Proof. destruct ev as [m|c seen|]; cbn; try discriminate. destruct c; cbn; congruence. Qed.

Lemma norm_is_no_step (ev : event X) :
  is_norm_event ev = true -> negb (is_step_event ev) = true.
Proof. destruct ev as [m|c seen|]; cbn; try reflexivity. destruct c; cbn; congruence. Qed.

Lemma clip_is_no_step (ev : event X) :
  is_clip_event ev = true -> negb (is_step_event ev) = true.
Proof. destruct ev as [m|c seen|]; cbn; try reflexivity. destruct c; cbn; congruence. Qed.

Lemma hook_is_no_step (ev : event X) :
  is_hook_event ev = true -> negb (is_step_event ev) = true.
Proof. destruct ev as [m|c seen|]; cbn; try reflexivity. destruct c; cbn; congruence. Qed.

(** [optimizer_step] leaves at most the call of [optimizer.step]. *)
Lemma optimizer_step_trace (self : PrecisionPlugin) (model : Module)
  (optimizer : Optimizer Tensor) (optimizer_idx : Z)
  (closure_result : value) (kw : kwargs) (s : Store X) :
  forallb (@is_step_event X)
    (trace (optimizer_step respond self model optimizer optimizer_idx
              closure_result kw s)) = true.
Proof.
  unfold optimizer_step.
  destruct (negb _ || negb _); [rewrite do_call_trace|]; reflexivity.
Qed.

(** C6. In every run of [pre_optimizer_step], whatever the collaborators
    do, each event of norm tracking (the tracker is entered, [grad_norm]
    is called, the norms are reported) comes strictly before each event
    of clipping (the clip gate is entered, the clipping hook is called),
    and [optimizer.step] is not called at all. When [optimizer_step]
    follows in the same step, its call of [optimizer.step] comes strictly
    after every event of norm tracking and of clipping. *)
Theorem norm_tracking_before_clipping_before_step (self : PrecisionPlugin)
  (model : Module) (optimizer : Optimizer Tensor) (optimizer_idx : Z)
  (closure_result : value) (kw : kwargs) (s : Store X) :
  let r := pre self model optimizer optimizer_idx s in
  let whole :=
    bind (pre self model optimizer optimizer_idx)
      (fun _ => optimizer_step respond self model optimizer optimizer_idx
                  closure_result kw) s in
  all_before (@is_norm_event X) (@is_clip_event X) (trace r)
  /\ forallb (fun ev => negb (is_step_event ev)) (trace r) = true
  /\ all_before (@is_norm_event X) (@is_clip_event X) (trace whole)
  /\ all_before (@is_norm_event X) (@is_step_event X) (trace whole)
  /\ all_before (@is_clip_event X) (@is_step_event X) (trace whole).
Proof.
  cbv zeta.
  destruct (pre_trace self model optimizer optimizer_idx s)
    as (tn & tc & th & Htr & Hn & Hc & Hh).
  assert (Hwhole : exists ts,
    trace (bind (pre self model optimizer optimizer_idx)
             (fun _ => optimizer_step respond self model optimizer
                         optimizer_idx closure_result kw) s)
    = (tn ++ tc ++ th) ++ ts
    /\ forallb (@is_step_event X) ts = true).
  { rewrite bind_cases.
    destruct (result (pre self model optimizer optimizer_idx s)) as [[]|e].
    - cbn [trace]. rewrite Htr. eexists. split; [reflexivity|].
      apply optimizer_step_trace.
    - cbn [trace]. rewrite Htr. exists []. rewrite app_nil_r. auto. }
  destruct Hwhole as (ts & Hw & Hs).
  rewrite Htr, Hw.
  assert (Hn_clip := forallb_weaken _ _ _ norm_is_no_clip Hn).
  assert (Hn_step := forallb_weaken _ _ _ norm_is_no_step Hn).
  assert (Hc_norm := forallb_weaken _ _ _ clip_is_no_norm Hc).
  assert (Hc_step := forallb_weaken _ _ _ clip_is_no_step Hc).
  assert (Hh_norm := forallb_weaken _ _ _ hook_is_no_norm Hh).
  assert (Hh_step := forallb_weaken _ _ _ hook_is_no_step Hh).
  assert (Hs_norm := forallb_weaken _ _ _ step_is_no_norm Hs).
  assert (Hs_clip := forallb_weaken _ _ _ step_is_no_clip Hs).
  repeat split.
  - apply all_before_split; [exact Hn_clip|].
    rewrite forallb_app, Hc_norm, Hh_norm. reflexivity.
  - rewrite !forallb_app, Hn_step, Hc_step, Hh_step. reflexivity.
  - rewrite <- !app_assoc. apply all_before_split; [exact Hn_clip|].
    rewrite !forallb_app, Hc_norm, Hh_norm, Hs_norm. reflexivity.
  - apply all_before_split; [|exact Hs_norm].
    rewrite !forallb_app, Hn_step, Hc_step, Hh_step. reflexivity.
  - apply all_before_split; [|exact Hs_clip].
    rewrite !forallb_app, Hn_step, Hc_step, Hh_step. reflexivity.
Qed.

(** C7, as amended. [pre_optimizer_step] enters the tracker exactly when
    the optimizer index is 0, once. It enters the clip gate exactly once
    on every call with another index, and on every call with index 0 in
    which the tracker returns; when the tracker raises, the exception
    leaves [pre_optimizer_step] and the clip gate is not entered. *)
Theorem pre_optimizer_step_invocations (self : PrecisionPlugin)
  (model : Module) (optimizer : Optimizer Tensor) (optimizer_idx : Z)
  (s : Store X) :
  let trainer := model_trainer model in
  let r := pre self model optimizer optimizer_idx s in
  times_entered "_track_grad_norm" (trace r)
    = (if Z.eqb optimizer_idx 0 then 1 else 0)%nat
  /\ (optimizer_idx <> 0%Z ->
      times_entered "clip_gradients" (trace r) = 1%nat)
  /\ (optimizer_idx = 0%Z ->
      result (track self trainer s) = Returns tt ->
      times_entered "clip_gradients" (trace r) = 1%nat)
  /\ (optimizer_idx = 0%Z ->
      forall e, result (track self trainer s) = Raises e ->
      result r = Raises e
      /\ times_entered "clip_gradients" (trace r) = 0%nat).
Proof.
  cbv zeta.
  pose proof (pre_cases self model optimizer optimizer_idx s) as H.
  cbv zeta in H.
  pose proof (maybe_track_trace self (model_trainer model) optimizer_idx s)
    as (Ht1 & Hc1 & _). cbv zeta in Ht1, Hc1.
  assert (Hcount :
    match result (maybe_track self (model_trainer model) optimizer_idx s) with
    | Returns _ =>
        times_entered "clip_gradients"
          (trace (pre self model optimizer optimizer_idx s)) = 1%nat
    | Raises e =>
        result (pre self model optimizer optimizer_idx s) = Raises e
        /\ times_entered "clip_gradients"
             (trace (pre self model optimizer optimizer_idx s)) = 0%nat
    end
    /\ times_entered "_track_grad_norm"
         (trace (pre self model optimizer optimizer_idx s))
       = (if Z.eqb optimizer_idx 0 then 1 else 0)%nat).
  { destruct (result (maybe_track _ _ _ s)) as [[]|e].
    2:{ rewrite H. cbn [trace result]. auto. }
    match type of H with
    | context [result ?r2] =>
        pose proof (clip_trace self optimizer optimizer_idx
          (gradient_clip_val (model_trainer model))
          (gradient_clip_algorithm (model_trainer model)) (Some model)
          (final (maybe_track self (model_trainer model) optimizer_idx s)))
          as (Hc2 & Ht2 & _); cbv zeta in Hc2, Ht2;
        destruct (result r2) as [[]|e]
    end.
    - pose proof (notify_trace model optimizer optimizer_idx
        (final (clip self optimizer optimizer_idx
          (gradient_clip_val (model_trainer model))
          (gradient_clip_algorithm (model_trainer model)) (Some model)
          (final (maybe_track self (model_trainer model) optimizer_idx s)))))
        as (Hc3 & Ht3 & _). cbv zeta in Hc3, Ht3.
      rewrite H. cbn [trace]. rewrite !times_entered_app.
      rewrite Hc1, Hc2, Hc3, Ht1, Ht2, Ht3. split; [reflexivity|lia].
    - rewrite H. cbn [trace]. rewrite !times_entered_app.
      rewrite Hc1, Hc2, Ht1, Ht2. split; [reflexivity|lia]. }
  destruct Hcount as [Hclip Htrack].
  split; [exact Htrack|]. unfold maybe_track in Hclip.
  split; [|split].
  - intros Hidx. apply Z.eqb_neq in Hidx. rewrite Hidx in Hclip. exact Hclip.
  - intros Hidx Hret. subst optimizer_idx. cbn [Z.eqb] in Hclip.
    rewrite Hret in Hclip. exact Hclip.
  - intros Hidx e Hraise. subst optimizer_idx. cbn [Z.eqb] in Hclip.
    rewrite Hraise in Hclip. exact Hclip.
Qed.

(** ** [backward] *)

(** With a LightningModule, [backward] hands the loss, the optimizer and
    the extra arguments to [model.backward], and does nothing else. *)
Lemma backward_delegates (self : PrecisionPlugin) (m : Module)
  (closure_loss : Tensor) (optimizer : option (Optimizer Tensor))
  (args : list value) (kw : kwargs) (s : Store X) :
  is_LightningModule m = true ->
  trace (backward respond self (Some m) closure_loss optimizer args kw s)
  = [Called (ModelBackward m closure_loss optimizer args kw) s].
Proof.
  intros Hm. unfold backward. rewrite Hm. apply do_call_trace.
Qed.

(** Without one, and with an extra positional argument, the first extra
    argument is bound to the parameter [model] of [_run_backward], and
    [tensor.backward] gets the others. *)
Lemma backward_drops_first_argument (self : PrecisionPlugin)
  (closure_loss : Tensor) (optimizer : option (Optimizer Tensor))
  (a : value) (args : list value) (s : Store X) :
  trace (backward respond self None closure_loss optimizer (a :: args) [] s)
  = [Called (TensorBackward (TensorV closure_loss) args []) s].
Proof.
  unfold backward, call_run_backward, bind. cbn.
  unfold _run_backward, do_call.
  match goal with |- context [respond ?c ?s0] => destruct (respond c s0) end.
  reflexivity.
Qed.

(** C3, at the input where the code fails it. [backward] called without a
    model (or with a module that is not a LightningModule) and without
    extra arguments does not reach [tensor.backward]: the call of
    [_run_backward] lacks the argument [model], a TypeError is raised, no
    collaborator is called and the store is untouched. *)
Theorem backward_without_model_raises (self : PrecisionPlugin)
  (closure_loss : Tensor) (optimizer : option (Optimizer Tensor))
  (s : Store X) :
  backward respond self None closure_loss optimizer [] [] s
  = {| result := Raises (TypeError
         "_run_backward() missing 1 required positional argument: 'model'");
       trace := [];
       final := s |}.
Proof. reflexivity. Qed.

Lemma backward_with_plain_module_raises (self : PrecisionPlugin)
  (m : Module) (closure_loss : Tensor)
  (optimizer : option (Optimizer Tensor)) (s : Store X) :
  is_LightningModule m = false ->
  backward respond self (Some m) closure_loss optimizer [] [] s
  = {| result := Raises (TypeError
         "_run_backward() missing 1 required positional argument: 'model'");
       trace := [];
       final := s |}.
Proof. intros Hm. unfold backward. rewrite Hm. reflexivity. Qed.

End PluginFacts.

(* ================================================================== *)
(** * More properties of the hooks *)
(* ================================================================== *)

Section MoreFacts.

Variable X : Type.
Variable respond : call -> Store X -> Store X * option exn.
Variable grad_norm : nat -> scalar -> string -> Store X -> outcome norms.
Variable float_of_str : string -> option spec_float.
Variable detach : Tensor -> Tensor.
Variable clip_grad_value_ : list Tensor -> scalar -> Store X -> Store X * option exn.
Variable clip_grad_norm_ : list Tensor -> scalar -> Store X -> Store X * option exn.

(** ** Argument binding *)

Lemma remove_absent (k : string) (kw : kwargs) :
  lookup k kw = None -> remove k kw = kw.
Proof.
  induction kw as [|[k' v] kw IH]; cbn; [reflexivity|].
  destruct (String.eqb k k'); [discriminate|].
  intros H. rewrite (IH H). reflexivity.
Qed.

Lemma no_conflict_lookup (filled : list string) (kw : kwargs) (k : string) :
  first_conflict filled kw = None -> In k filled -> lookup k kw = None.
Proof.
  intros Hnone Hin. induction kw as [|[k' v] kw IH]; cbn in *; [reflexivity|].
  destruct (existsb (String.eqb k') filled) eqn:Hex; [discriminate|].
  destruct (String.eqb_spec k k') as [->|Hne]; [|apply IH; exact Hnone].
  exfalso. assert (existsb (String.eqb k') filled = true); [|congruence].
  apply existsb_exists. exists k'. split; [exact Hin|apply String.eqb_refl].
Qed.

(** The tensor [_run_backward] works on is the first positional argument. *)
Lemma bind_run_backward_tensor (t0 : value) (args : list value) (kw : kwargs)
  (t m : value) (a : list value) (k : kwargs) :
  bind_run_backward (t0 :: args) kw = Returns (t, m, a, k) -> t = t0.
Proof.
  unfold bind_run_backward. destruct args as [|m0 rest].
  - destruct (first_conflict _ kw); [discriminate|].
    destruct (lookup "model" kw); [|discriminate].
    intros H. inversion H. reflexivity.
  - destruct (first_conflict _ kw); [discriminate|].
    intros H. inversion H. reflexivity.
Qed.

(** The run of [backward] when the model is not a LightningModule. *)
Lemma backward_plain_path (self : PrecisionPlugin) (model : option Module)
  (closure_loss : Tensor) (optimizer : option (Optimizer Tensor))
  (args : list value) (kw : kwargs) (s : Store X) :
  model = None \/ (exists m, model = Some m /\ is_LightningModule m = false) ->
  backward respond self model closure_loss optimizer args kw s
  = call_run_backward respond self (TensorV closure_loss :: args) kw s.
Proof.
  intros [->|(m & -> & Hm)]; unfold backward; [reflexivity|].
  rewrite Hm. reflexivity.
Qed.

Lemma call_run_backward_cases (self : PrecisionPlugin)
  (positional : list value) (kw : kwargs) (s : Store X) :
  match bind_run_backward positional kw with
  | Raises e =>
      call_run_backward respond self positional kw s
      = {| result := Raises e; trace := []; final := s |}
  | Returns (t, m, a, k) =>
      trace (call_run_backward respond self positional kw s)
      = [Called (TensorBackward t a k) s]
  end.
Proof.
  unfold call_run_backward. rewrite bind_cases.
  destruct (bind_run_backward positional kw) as [[[[t m] a] k]|e]; cbn;
    [|reflexivity].
  unfold _run_backward. rewrite do_call_trace. reflexivity.
Qed.

(** ** [backward] *)

(** X1. [backward] makes at most one call into a collaborator. It is
    [model.backward], with the loss, the optimizer and the extra arguments
    unchanged, exactly when the model is a LightningModule; any other call
    is [backward] on the loss tensor itself. *)
Theorem backward_calls_one_backward (self : PrecisionPlugin)
  (model : option Module) (closure_loss : Tensor)
  (optimizer : option (Optimizer Tensor)) (args : list value) (kw : kwargs)
  (s : Store X) :
  let r := backward respond self model closure_loss optimizer args kw s in
  (forall m, model = Some m -> is_LightningModule m = true ->
     trace r = [Called (ModelBackward m closure_loss optimizer args kw) s])
  /\ (model = None \/ (exists m, model = Some m /\ is_LightningModule m = false) ->
      trace r = []
      \/ exists a k, trace r = [Called (TensorBackward (TensorV closure_loss) a k) s]).
Proof.
  cbv zeta. split.
  - intros m -> Hm. unfold backward. rewrite Hm. apply do_call_trace.
  - intros Hplain. rewrite (backward_plain_path self closure_loss optimizer args kw s Hplain).
    pose proof (call_run_backward_cases self (TensorV closure_loss :: args) kw s) as H.
    destruct (bind_run_backward _ kw) as [[[[t m] a] k]|e] eqn:Hb.
    + right. apply bind_run_backward_tensor in Hb. subst t. eauto.
    + left. rewrite H. reflexivity.
Qed.

(** X2. Without a LightningModule, the first extra positional argument of
    [backward] is taken for the parameter [model] of [_run_backward] and
    goes no further: [tensor.backward] gets the remaining positional
    arguments and the keyword arguments, provided no keyword is named
    [self], [tensor] or [model]. *)
Theorem backward_swallows_first_extra_argument (self : PrecisionPlugin)
  (model : option Module) (closure_loss : Tensor)
  (optimizer : option (Optimizer Tensor)) (a : value) (args : list value)
  (kw : kwargs) (s : Store X) :
  model = None \/ (exists m, model = Some m /\ is_LightningModule m = false) ->
  first_conflict ["self"; "tensor"; "model"]%string kw = None ->
  trace (backward respond self model closure_loss optimizer (a :: args) kw s)
  = [Called (TensorBackward (TensorV closure_loss) args kw) s].
Proof.
  intros Hplain Hkw.
  rewrite (backward_plain_path self closure_loss optimizer (a :: args) kw s Hplain).
  pose proof (call_run_backward_cases self (TensorV closure_loss :: a :: args) kw s) as H.
  unfold bind_run_backward in H. rewrite Hkw in H.
  rewrite (remove_absent "model" kw) in H
    by (apply (no_conflict_lookup _ _ _ Hkw); cbn; auto).
  rewrite (remove_absent "tensor" kw) in H
    by (apply (no_conflict_lookup _ _ _ Hkw); cbn; auto).
  exact H.
Qed.

(** X3. Without a LightningModule and without extra positional arguments,
    [backward] raises a TypeError whatever the keyword arguments are (none
    of them can be named [model], a parameter of [backward] itself): no
    collaborator is called and the store is untouched. *)
Theorem backward_without_extra_arguments_raises (self : PrecisionPlugin)
  (model : option Module) (closure_loss : Tensor)
  (optimizer : option (Optimizer Tensor)) (kw : kwargs) (s : Store X) :
  model = None \/ (exists m, model = Some m /\ is_LightningModule m = false) ->
  lookup "model" kw = None ->
  exists msg,
    backward respond self model closure_loss optimizer [] kw s
    = {| result := Raises (TypeError msg); trace := []; final := s |}.
Proof.
  intros Hplain Hkw.
  rewrite (backward_plain_path self closure_loss optimizer [] kw s Hplain).
  pose proof (call_run_backward_cases self [TensorV closure_loss] kw s) as H.
  unfold bind_run_backward in H. rewrite Hkw in H.
  destruct (first_conflict _ kw); eexists; exact H.
Qed.

(** ** [pre_backward], [backward], [post_backward] in sequence *)





(** ** [_track_grad_norm], continued *)

Local Notation "'track'" := (_track_grad_norm respond grad_norm float_of_str).
Local Notation "'hook_name'" := ("on_before_optimizer_step"%string).

(** X5. When [_track_grad_norm] raises, either it failed before reporting
    (the configuration does not convert to a float, the trainer has no
    logger, [grad_norm] raised): then no collaborator was called and the
    store is untouched; or [log_grad_norm] raised: then the exception is the
    hook's and the store is left exactly as the hook left it, so
    [_current_fx_name] is not put back to its previous value. *)
Theorem track_grad_norm_failure (self : PrecisionPlugin) (trainer : Trainer)
  (s : Store X) (e : exn) :
  let m := lightning_module trainer in
  let r := track self trainer s in
  result r = Raises e ->
  (calls_of (trace r) = [] /\ final r = s)
  \/ (exists d s2,
        calls_of (trace r) = [LogGradNorm m d]
        /\ respond (LogGradNorm m d) (set_fx m (Some hook_name) s)
           = (s2, Some e)
        /\ final r = s2).
Proof.
  cbv zeta. intros Hraise.
  pose proof (track_cases respond grad_norm float_of_str self trainer s) as H.
  cbv zeta in H.
  destruct (float float_of_str (track_grad_norm trainer)) as [f|e0].
  2:{ rewrite H. left. split; reflexivity. }
  destruct (eq_minus_one f).
  { rewrite H in Hraise. discriminate Hraise. }
  destruct (logger trainer) as [l|].
  2:{ destruct H as [e0 H]. rewrite H. left. split; reflexivity. }
  destruct (grad_norm _ _ _ s) as [d|e0].
  2:{ rewrite H. left. split; reflexivity. }
  destruct (truthy d).
  2:{ rewrite H in Hraise. discriminate Hraise. }
  cbv zeta in H.
  destruct (respond _ _) as [s2 [e0|]] eqn:Hhook; rewrite H in Hraise |- *.
  - right. exists d, s2. cbn in Hraise. inversion Hraise. subst e0.
    split; [reflexivity|split; [exact Hhook|reflexivity]].
  - discriminate Hraise.
Qed.

(** X6. [_track_grad_norm] calls [grad_norm] at most once, on the trainer's
    module with the configured norm type and the logger's separator, and
    [log_grad_norm] at most once, on that module with exactly the
    dictionary [grad_norm] returned, which is then not empty; it calls no
    other collaborator. Conversely, with tracking on, a logger and a
    non-empty dictionary, the report is made. *)
Theorem track_grad_norm_reports_the_norms (self : PrecisionPlugin)
  (trainer : Trainer) (s : Store X) :
  let m := lightning_module trainer in
  let cfg := track_grad_norm trainer in
  let r := track self trainer s in
  ((grad_norm_calls_of (trace r) = [] /\ calls_of (trace r) = [])
   \/ exists l,
        logger trainer = Some l
        /\ grad_norm_calls_of (trace r) = [(m, cfg, group_separator l)]
        /\ (calls_of (trace r) = []
            \/ exists d,
                 grad_norm m cfg (group_separator l) s = Returns d
                 /\ d <> []
                 /\ calls_of (trace r) = [LogGradNorm m d]))
  /\ (forall f l d,
        float float_of_str cfg = Returns f -> eq_minus_one f = false ->
        logger trainer = Some l ->
        grad_norm m cfg (group_separator l) s = Returns d -> d <> [] ->
        calls_of (trace r) = [LogGradNorm m d]).
Proof.
  cbv zeta.
  pose proof (track_cases respond grad_norm float_of_str self trainer s) as H.
  cbv zeta in H.
  destruct (float float_of_str (track_grad_norm trainer)) as [f|e0].
  2:{ rewrite H. cbn. split; [left; split; reflexivity|intros; congruence]. }
  destruct (eq_minus_one f) eqn:Hf.
  { rewrite H. cbn. split; [left; split; reflexivity|].
    intros f' l d Hf'. inversion Hf'. subst f'. congruence. }
  destruct (logger trainer) as [l|] eqn:Hl.
  2:{ destruct H as [e0 H]. rewrite H. cbn.
      split; [left; split; reflexivity|intros; congruence]. }
  destruct (grad_norm _ _ _ s) as [d|e0] eqn:Hd.
  2:{ rewrite H. cbn. split; [|intros; congruence].
      right. exists l. repeat split. left. reflexivity. }
  destruct (truthy d) eqn:Ht.
  2:{ rewrite H. cbn. split.
      - right. exists l. repeat split. left. reflexivity.
      - intros f' l' d' _ _ Hl' Hd' Hne.
        assert (d' = d) by congruence. subst d'.
        destruct d; [congruence|discriminate Ht]. }
  cbv zeta in H.
  assert (Hne : d <> []) by (destruct d; [discriminate Ht|discriminate]).
  destruct (respond _ _) as [s2 [e0|]]; rewrite H; cbn.
  all: split;
    [right; exists l; repeat split; right; exists d; repeat split; auto|].
  all: intros f' l' d' _ _ Hl' Hd' _;
       assert (d' = d) by congruence; subst d'; reflexivity.
Qed.

(** ** [pre_optimizer_step], continued *)

Local Notation "'pre'" :=
  (pre_optimizer_step respond grad_norm float_of_str).
Local Notation "'clip'" := (clip_gradients respond).
Local Notation "'maybe_track'" :=
  (maybe_track respond grad_norm float_of_str).
Local Notation "'notify'" := (notify respond).

Lemma hooks_of_app (t1 t2 : list (event X)) :
  hooks_of (t1 ++ t2) = hooks_of t1 ++ hooks_of t2.
Proof.
  induction t1 as [|ev t1 IH]; cbn; [reflexivity|].
  destruct ev as [m|c seen|m nt sep]; [exact IH| |exact IH].
  destruct c; cbn; rewrite IH; reflexivity.
Qed.

Lemma clip_calls_of_app (t1 t2 : list (event X)) :
  clip_calls_of (t1 ++ t2) = clip_calls_of t1 ++ clip_calls_of t2.
Proof.
  induction t1 as [|ev t1 IH]; cbn; [reflexivity|].
  destruct ev as [m|c seen|m nt sep]; [exact IH| |exact IH].
  destruct c; cbn; rewrite IH; reflexivity.
Qed.

(** The events of norm tracking are neither hooks of the trainer nor calls
    of the clipping hook. *)
Lemma norm_events_only (tr : list (event X)) :
  forallb (@is_norm_event X) tr = true ->
  hooks_of tr = [] /\ clip_calls_of tr = [].
Proof.
  induction tr as [|ev tr IH]; cbn; [auto|].
  intros H. apply andb_prop in H as [Hev Htr]. destruct (IH Htr) as [Hh Hc].
  destruct ev as [m|c seen|m nt sep]; [auto| |auto].
  destruct c; cbn in Hev; try discriminate. auto.
Qed.

Lemma clip_stage (self : PrecisionPlugin) (optimizer : Optimizer Tensor)
  (optimizer_idx : Z) (clip_val : option scalar)
  (algorithm : GradClipAlgorithmType) (m : Module) (s : Store X) :
  let tr := trace (clip self optimizer optimizer_idx clip_val algorithm
                     (Some m) s) in
  hooks_of tr = []
  /\ clip_calls_of tr
     = if use_deepspeed (accelerator_connector (self_trainer self)) then []
       else [ConfigureGradientClipping m optimizer optimizer_idx clip_val
               algorithm].
Proof.
  cbv zeta. unfold clip_gradients. rewrite bind_cases. cbn [entered result trace final].
  destruct (use_deepspeed _); cbn [orb]; [split; reflexivity|].
  rewrite do_call_trace. split; reflexivity.
Qed.

Lemma notify_stage (model : Module) (optimizer : Optimizer Tensor)
  (optimizer_idx : Z) (s : Store X) :
  let tr := trace (notify model optimizer optimizer_idx s) in
  clip_calls_of tr = []
  /\ tr = if is_LightningModule model
          then [Called (CallHook (model_trainer model) hook_name
                          [ArgOptimizer optimizer; ArgInt optimizer_idx]) s]
          else [].
Proof.
  cbv zeta. unfold notify.
  destruct (is_LightningModule model); [|split; reflexivity].
  rewrite do_call_trace. split; reflexivity.
Qed.

(** X7. [pre_optimizer_step] calls the hook [on_before_optimizer_step] of
    the model's trainer at most once, with the optimizer and its index, and
    calls no other hook of the trainer. A module that is not a
    LightningModule gets no hook; a LightningModule gets it, as the last
    thing done, on every call that returns. *)
Theorem pre_optimizer_step_notifies_last (self : PrecisionPlugin)
  (model : Module) (optimizer : Optimizer Tensor) (optimizer_idx : Z)
  (s : Store X) :
  let r := pre self model optimizer optimizer_idx s in
  let h := (hook_name, [ArgOptimizer optimizer; ArgInt optimizer_idx]) in
  (hooks_of (trace r) = [] \/ hooks_of (trace r) = [h])
  /\ (is_LightningModule model = false -> hooks_of (trace r) = [])
  /\ (is_LightningModule model = true -> result r = Returns tt ->
      hooks_of (trace r) = [h]
      /\ exists before seen,
           trace r
           = before ++ [Called (CallHook (model_trainer model) hook_name
                                  [ArgOptimizer optimizer;
                                   ArgInt optimizer_idx]) seen]).
Proof.
  cbv zeta.
  pose proof (pre_cases respond grad_norm float_of_str self model optimizer
                optimizer_idx s) as H. cbv zeta in H.
  pose proof (maybe_track_trace respond grad_norm float_of_str self
                (model_trainer model) optimizer_idx s) as (_ & _ & Hn).
  cbv zeta in Hn. apply norm_events_only in Hn as [Hh1 _].
  destruct (result (maybe_track _ _ _ s)) as [[]|e].
  2:{ rewrite H. cbn [trace result]. rewrite Hh1.
      split; [left; reflexivity|]. split; [reflexivity|discriminate]. }
  match type of H with
  | context [result ?r2] =>
      pose proof (clip_stage self optimizer optimizer_idx
        (gradient_clip_val (model_trainer model))
        (gradient_clip_algorithm (model_trainer model)) model
        (final (maybe_track self (model_trainer model) optimizer_idx s)))
        as (Hh2 & _); cbv zeta in Hh2;
      destruct (result r2) as [[]|e]
  end.
  2:{ rewrite H. cbn [trace result]. rewrite hooks_of_app, Hh1, Hh2.
      split; [left; reflexivity|]. split; [reflexivity|discriminate]. }
  match type of H with
  | context [notify model optimizer optimizer_idx ?s3] =>
      pose proof (notify_stage model optimizer optimizer_idx s3) as (_ & Ht3)
  end.
  cbv zeta in Ht3. rewrite H. cbn [trace result].
  rewrite !hooks_of_app, Hh1, Hh2, Ht3.
  destruct (is_LightningModule model); cbn [hooks_of app].
  - split; [right; reflexivity|]. split; [discriminate|].
    intros _ _. split; [reflexivity|].
    eexists. eexists. rewrite app_assoc. reflexivity.
  - split; [left; reflexivity|]. split; [reflexivity|discriminate].
Qed.

(** X8. Whatever trainer the plugin itself is attached to, the clip value
    and the algorithm [pre_optimizer_step] hands to the clipping hook of the
    model are those of the model's trainer, with the model, the optimizer
    and the index it was given; the hook is called at most once, never when
    the plugin's trainer uses DeepSpeed, and otherwise on every call that
    gets past norm tracking (every call with another index than 0, every
    call that returns). *)
Theorem pre_optimizer_step_clip_settings (self : PrecisionPlugin)
  (model : Module) (optimizer : Optimizer Tensor) (optimizer_idx : Z)
  (s : Store X) :
  let trainer := model_trainer model in
  let r := pre self model optimizer optimizer_idx s in
  let c := ConfigureGradientClipping model optimizer optimizer_idx
             (gradient_clip_val trainer) (gradient_clip_algorithm trainer) in
  let deepspeed := use_deepspeed (accelerator_connector (self_trainer self)) in
  (clip_calls_of (trace r) = [] \/ clip_calls_of (trace r) = [c])
  /\ (deepspeed = true -> clip_calls_of (trace r) = [])
  /\ (deepspeed = false -> result r = Returns tt ->
      clip_calls_of (trace r) = [c])
  /\ (deepspeed = false -> optimizer_idx <> 0%Z ->
      clip_calls_of (trace r) = [c]).
Proof.
  cbv zeta.
  pose proof (pre_cases respond grad_norm float_of_str self model optimizer
                optimizer_idx s) as H. cbv zeta in H.
  pose proof (maybe_track_trace respond grad_norm float_of_str self
                (model_trainer model) optimizer_idx s) as (_ & _ & Hn).
  cbv zeta in Hn. apply norm_events_only in Hn as [_ Hc1].
  assert (Hidx : optimizer_idx <> 0%Z ->
    result (maybe_track self (model_trainer model) optimizer_idx s)
    = Returns tt).
  { intros Hne. apply Z.eqb_neq in Hne. unfold maybe_track.
    rewrite Hne. reflexivity. }
  destruct (result (maybe_track _ _ _ s)) as [[]|e].
  2:{ rewrite H. cbn [trace result]. rewrite Hc1.
      split; [left; reflexivity|]. split; [reflexivity|].
      split; [discriminate|]. intros _ Hne. apply Hidx in Hne.
      discriminate Hne. }
  match type of H with
  | context [result ?r2] =>
      pose proof (clip_stage self optimizer optimizer_idx
        (gradient_clip_val (model_trainer model))
        (gradient_clip_algorithm (model_trainer model)) model
        (final (maybe_track self (model_trainer model) optimizer_idx s)))
        as (_ & Hc2); cbv zeta in Hc2;
      destruct (result r2) as [[]|e]
  end.
  - match type of H with
    | context [notify model optimizer optimizer_idx ?s3] =>
        pose proof (notify_stage model optimizer optimizer_idx s3) as (Hc3 & _)
    end.
    cbv zeta in Hc3. rewrite H. cbn [trace result].
    rewrite !clip_calls_of_app, Hc1, Hc2, Hc3.
    destruct (use_deepspeed _); cbn.
    + split; [left; reflexivity|]. repeat split; try reflexivity; discriminate.
    + split; [right; reflexivity|]. repeat split; try reflexivity; discriminate.
  - rewrite H. cbn [trace result].
    rewrite !clip_calls_of_app, Hc1, Hc2.
    destruct (use_deepspeed _); cbn.
    + split; [left; reflexivity|]. repeat split; try reflexivity; discriminate.
    + split; [right; reflexivity|]. repeat split; try reflexivity; discriminate.
Qed.

(** ** [clip_grad_by_value] and [clip_grad_by_norm] *)

(** X9. [clip_grad_by_value] and [clip_grad_by_norm] give torch's utility
    every parameter of every group of the optimizer, in the order of the
    groups and once per occurrence, together with the threshold unchanged;
    they call nothing else, and end as the utility ends: with its store
    and, when it raises, its exception. *)
Theorem clip_grad_covers_every_group (self : PrecisionPlugin)
  (optimizer : Optimizer Tensor) (clip_val : scalar) (s : Store X) :
  let all := List.concat (map (@params Tensor) (param_groups optimizer)) in
  let ends (u : Store X * option exn) : run X unit :=
    {| result := match snd u with None => Returns tt | Some e => Raises e end;
       trace := [];
       final := fst u |} in
  clip_grad_by_value clip_grad_value_ self optimizer clip_val s
  = ends (clip_grad_value_ all clip_val s)
  /\ clip_grad_by_norm clip_grad_norm_ self optimizer clip_val s
     = ends (clip_grad_norm_ all clip_val s).
Proof.
  cbv zeta. unfold clip_grad_by_value, clip_grad_by_norm, over_iterable,
    master_params.
  rewrite list_master_params_loop. split.
  - destruct (clip_grad_value_ _ clip_val s) as [s2 x]. reflexivity.
  - destruct (clip_grad_norm_ _ clip_val s) as [s2 x]. reflexivity.
Qed.

(** ** The sentinel of norm tracking *)

Lemma eq_minus_one_spec (f : spec_float) :
  eq_minus_one f = true <-> f = minus_one.
Proof.
  split; [|intros ->; reflexivity].
  destruct f as [sg|sg| |sg m e].
  - destruct sg; intros H; discriminate H.
  - destruct sg; intros H; discriminate H.
  - intros H; discriminate H.
  - destruct sg; [|intros H; discriminate H].
    unfold eq_minus_one, SFeqb, SFcompare, minus_one.
    destruct (Z.compare_spec e (-52)) as [->|Hlt|Hgt];
      [|intros H; discriminate H|intros H; discriminate H].
    destruct (Pos.compare_cont Eq m 4503599627370496%positive) eqn:Hm;
      [|intros H; discriminate H|intros H; discriminate H].
    intros _. apply Pos.compare_eq in Hm. subst m. reflexivity.
Qed.

Lemma shr_exponent (mrs : shr_record) (e n : Z) :
  (e <= snd (shr mrs e n))%Z.
Proof. destruct n; cbn; lia. Qed.

Lemma shr_fexp_exponent (m e : Z) (l : location) :
  (e <= snd (shr_fexp prec emax m e l))%Z.
Proof. unfold shr_fexp. apply shr_exponent. Qed.

(** Rounding keeps the sign and does not lower the exponent. *)
Lemma binary_round_aux_shape (sx : bool) (mx ex : Z) (lx : location) :
  match binary_round_aux prec emax sx mx ex lx with
  | S754_finite s _ e => s = sx /\ (ex <= e)%Z
  | S754_zero s | S754_infinity s => s = sx
  | S754_nan => True
  end.
Proof.
  unfold binary_round_aux.
  pose proof (shr_fexp_exponent mx ex lx) as H1.
  destruct (shr_fexp prec emax mx ex lx) as [mrs' e']. cbn [snd] in H1.
  match goal with
  | |- context [shr_fexp prec emax ?m e' loc_Exact] =>
      pose proof (shr_fexp_exponent m e' loc_Exact) as H2;
      destruct (shr_fexp prec emax m e' loc_Exact) as [mrs'' e'']
  end.
  cbn [snd] in H2.
  destruct (shr_m mrs''); [reflexivity| |exact I].
  destruct (Z.leb e'' (emax - prec)); [|reflexivity].
  split; [reflexivity|lia].
Qed.

Lemma digits2_pos_one (p : positive) : digits2_pos p = 1%positive -> p = 1%positive.
Proof.
  destruct p; cbn; intros H; [| |reflexivity];
    exfalso; revert H; generalize (digits2_pos p); intros q; lia.
Qed.

(** Aligning a mantissa of exponent 0 does not raise the exponent. *)
Lemma shl_align_exponent (mx : positive) (ex' : Z) :
  snd (shl_align mx 0 ex') = Z.min ex' 0.
Proof.
  unfold shl_align. destruct (ex' - 0)%Z eqn:H; cbn [snd]; lia.
Qed.

(** [float] of an [int] is [-1.0] for the [int] [-1] only. *)
Lemma float_of_int_minus_one (z : Z) :
  float_of_int z = Returns minus_one -> z = (-1)%Z.
Proof.
  unfold float_of_int, binary_normalize.
  destruct z as [|p|p].
  - intros H. discriminate H.
  - unfold binary_round.
    destruct (shl_align p 0 _) as [mz ez].
    pose proof (binary_round_aux_shape false (Zpos mz) ez loc_Exact) as H.
    destruct (binary_round_aux prec emax false (Zpos mz) ez loc_Exact)
      as [sg|sg| |sg m e]; intros Heq; try discriminate Heq.
    destruct H as [H _]. subst sg. discriminate Heq.
  - unfold binary_round.
    pose proof (shl_align_exponent p
                  (fexp prec emax (Zpos (digits2_pos p) + 0))) as Halign.
    destruct (shl_align p 0 _) as [mz ez]. cbn [snd] in Halign.
    pose proof (binary_round_aux_shape true (Zpos mz) ez loc_Exact) as H.
    destruct (binary_round_aux prec emax true (Zpos mz) ez loc_Exact)
      as [sg|sg| |sg m e]; intros Heq; try discriminate Heq.
    destruct H as [_ Hez].
    assert (He : e = (-52)%Z) by (unfold minus_one in Heq; congruence).
    assert (Hd : (Zpos (digits2_pos p) <= 1)%Z).
    { unfold fexp, emin, prec, emax in Halign.
      generalize dependent (Zpos (digits2_pos p)). intros d Halign. lia. }
    assert (Hone : digits2_pos p = 1%positive) by lia.
    apply digits2_pos_one in Hone. subst p. reflexivity.
Qed.

(** X10. Norm tracking is switched off by exactly three configurations: the
    [int] [-1], the float [-1.0], and a string that [float] reads as
    [-1.0]. No other [int] converts to [-1.0], however large, and an [int]
    too large for a float is not the sentinel either. *)
Theorem disabled_iff (cfg : scalar) :
  disabled float_of_str cfg
  <-> cfg = Int (-1)
      \/ cfg = Float minus_one
      \/ exists str, cfg = Str str /\ float_of_str str = Some minus_one.
Proof.
  unfold disabled. split.
  - intros (f & Hf & Heq). apply eq_minus_one_spec in Heq. subst f.
    destruct cfg as [z|f|str]; cbn in Hf.
    + left. apply float_of_int_minus_one in Hf. subst z. reflexivity.
    + right. left. inversion Hf. reflexivity.
    + right. right. exists str. split; [reflexivity|].
      destruct (float_of_str str); inversion Hf. reflexivity.
  - intros [->|[->|(str & -> & Hstr)]]; exists minus_one; cbn.
    + split; reflexivity.
    + split; reflexivity.
    + rewrite Hstr. split; reflexivity.
Qed.

(** ** [_current_fx_name] across [pre_optimizer_step] *)

Lemma do_call_final (c : call) (s : Store X) :
  final (do_call respond c s) = fst (respond c s).
Proof. unfold do_call. destruct (respond c s). reflexivity. Qed.

Lemma track_keeps_fx_name (self : PrecisionPlugin) (trainer : Trainer)
  (s : Store X) :
  fx_untouched respond ->
  result (track self trainer s) = Returns tt ->
  forall m, current_fx_name (final (track self trainer s)) m
            = current_fx_name s m.
Proof.
  intros Hfx Hret m.
  pose proof (track_cases respond grad_norm float_of_str self trainer s) as H.
  cbv zeta in H.
  destruct (float float_of_str (track_grad_norm trainer)) as [f|e0];
    [|rewrite H in Hret; discriminate Hret].
  destruct (eq_minus_one f); [rewrite H; reflexivity|].
  destruct (logger trainer) as [l|];
    [|destruct H as [e0 H]; rewrite H in Hret; discriminate Hret].
  destruct (grad_norm _ _ _ s) as [d|e0];
    [|rewrite H in Hret; discriminate Hret].
  destruct (truthy d); [|rewrite H; reflexivity].
  cbv zeta in H.
  pose proof (Hfx (LogGradNorm (lightning_module trainer) d)
                (set_fx (lightning_module trainer) (Some hook_name) s) m)
    as Hhook.
  destruct (respond _ _) as [s2 [e0|]];
    [rewrite H in Hret; discriminate Hret|].
  rewrite H. cbn [final fst] in *. unfold set_fx in *. cbn in *.
  destruct (Nat.eqb_spec m (lightning_module trainer)) as [->|Hne];
    [reflexivity|exact Hhook].
Qed.

(** X11. With collaborators that do not touch [_current_fx_name], a call of
    [pre_optimizer_step] that returns leaves [_current_fx_name] of every
    module as it found it: the name the tracker sets for the report is
    taken back before clipping and the hook. *)
Theorem pre_optimizer_step_keeps_fx_name (self : PrecisionPlugin)
  (model : Module) (optimizer : Optimizer Tensor) (optimizer_idx : Z)
  (s : Store X) :
  fx_untouched respond ->
  result (pre self model optimizer optimizer_idx s) = Returns tt ->
  forall m,
    current_fx_name (final (pre self model optimizer optimizer_idx s)) m
    = current_fx_name s m.
Proof.
  intros Hfx Hret m.
  pose proof (pre_cases respond grad_norm float_of_str self model optimizer
                optimizer_idx s) as H. cbv zeta in H.
  assert (H1 : result (maybe_track self (model_trainer model) optimizer_idx s)
               = Returns tt ->
               current_fx_name
                 (final (maybe_track self (model_trainer model) optimizer_idx s)) m
               = current_fx_name s m).
  { unfold maybe_track. destruct (Z.eqb optimizer_idx 0); [|reflexivity].
    intros Hr. apply track_keeps_fx_name; assumption. }
  destruct (result (maybe_track _ _ _ s)) as [[]|e];
    [|rewrite H in Hret; discriminate Hret].
  specialize (H1 eq_refl).
  assert (H2 : forall s0,
    current_fx_name
      (final (clip self optimizer optimizer_idx
                (gradient_clip_val (model_trainer model))
                (gradient_clip_algorithm (model_trainer model))
                (Some model) s0)) m
    = current_fx_name s0 m).
  { intros s0. unfold clip_gradients. rewrite bind_cases.
    cbn [entered result trace final].
    destruct (use_deepspeed _); cbn [orb]; [reflexivity|].
    rewrite do_call_final. apply Hfx. }
  assert (H3 : forall s0,
    current_fx_name (final (notify model optimizer optimizer_idx s0)) m
    = current_fx_name s0 m).
  { intros s0. unfold notify. destruct (is_LightningModule model);
      [|reflexivity].
    rewrite do_call_final. apply Hfx. }
  destruct (result (clip_gradients _ _ _ _ _ _ _ _)) as [[]|e];
    [|rewrite H in Hret; discriminate Hret].
  rewrite H. cbn [final]. rewrite H3, H2. exact H1.
Qed.

End MoreFacts.

(* ================================================================== *)
(** * The theorems on the demo setup *)
(* ================================================================== *)

Local Open Scope string_scope.

(** The five parameters of the two groups come out in order, and the first
    four of them when four are asked for. *)
Example master_params_demo :
  list_ (master_params Demo.optimizer (@nil Tensor))
  = ([10; 11; 12; 13; 14], Returns tt, [])
  /\ islice 4 Demo.hand_over (master_params Demo.optimizer) []
     = ([10; 11; 12; 13], Returns tt, [10; 11; 12; 13]).
Proof. split; reflexivity. Qed.

(** A failing body under [train_step_context], with a recording
    [forward_context]: the scope is entered, the body runs once, the scope
    is left, the exception goes on. *)
Example train_step_context_demo :
  with_ (train_step_context Demo.scoped_forward_context) Demo.failing_body []
  = (Raises (ValueError "bad batch"), ["enter"; "body"; "exit"]).
Proof. reflexivity. Qed.

(** A whole step with the first optimizer: norms reported, then clipping,
    then the hook, then the optimizer. *)
Example step_demo :
  calls_of (trace (bind
    (pre_optimizer_step Demo.quiet Demo.grad_norm Demo.float_of_str
       Demo.plugin Demo.model Demo.optimizer 0)
    (fun _ => optimizer_step Demo.quiet Demo.plugin Demo.model Demo.optimizer
                0 (TensorV 7) []) Demo.store))
  = [ LogGradNorm 0 [("grad_2.0_norm_total", Demo.two_and_a_half)];
      ConfigureGradientClipping Demo.model Demo.optimizer 0
        (Some (Float Demo.half)) NORM;
      CallHook Demo.trainer "on_before_optimizer_step"
        [ArgOptimizer Demo.optimizer; ArgInt 0];
      OptimizerStep Demo.optimizer [] ].
Proof. reflexivity. Qed.

(** [backward] without a model and without extra arguments, on the demo
    objects. *)
Example backward_demo :
  backward Demo.quiet Demo.plugin None 7 (Some Demo.optimizer) [] [] Demo.store
  = {| result := Raises (TypeError
         "_run_backward() missing 1 required positional argument: 'model'");
       trace := [];
       final := Demo.store |}.
Proof. reflexivity. Qed.

(** C1 on the demo: a skipped closure steps under manual optimization and
    does not under automatic optimization. *)
Lemma optimizer_step_iff_witness :
  calls_of (trace (optimizer_step Demo.quiet Demo.plugin Demo.manual_model
                     Demo.optimizer 0 NoneV [] Demo.store))
  = [OptimizerStep Demo.optimizer []]
  /\ optimizer_step Demo.quiet Demo.plugin Demo.model Demo.optimizer 0 NoneV []
       Demo.store
     = {| result := Returns tt; trace := []; final := Demo.store |}.
Proof.
  split.
  - pose proof (optimizer_step_iff Demo.quiet Demo.plugin Demo.manual_model
                  Demo.optimizer 0 NoneV [] Demo.store) as H.
    cbv zeta in H. destruct H as (H & _). apply H.
    intros [Hauto _]. discriminate Hauto.
  - pose proof (optimizer_step_iff Demo.quiet Demo.plugin Demo.model
                  Demo.optimizer 0 NoneV [] Demo.store) as H.
    cbv zeta in H. destruct H as (_ & H & _). apply H.
    split; reflexivity.
Defined.

(** C4 on the demo: with the model the hook is called once, without it
    nothing is. *)
Lemma clip_gradients_gate_witness :
  calls_of (trace (clip_gradients Demo.quiet Demo.plugin Demo.optimizer 0
                     (Some (Float Demo.half)) VALUE (Some Demo.model)
                     Demo.store))
  = [ConfigureGradientClipping Demo.model Demo.optimizer 0
       (Some (Float Demo.half)) VALUE]
  /\ calls_of (trace (clip_gradients Demo.quiet Demo.plugin Demo.optimizer 0
                        (Some (Float Demo.half)) VALUE None Demo.store))
     = [].
Proof.
  split.
  - pose proof (clip_gradients_gate Demo.quiet Demo.plugin Demo.optimizer 0
                  (Some (Float Demo.half)) VALUE (Some Demo.model) Demo.store)
      as H.
    cbv zeta in H. destruct H as (_ & H).
    apply (H Demo.model); reflexivity.
  - pose proof (clip_gradients_gate Demo.quiet Demo.plugin Demo.optimizer 0
                  (Some (Float Demo.half)) VALUE None Demo.store) as H.
    cbv zeta in H. destruct H as (H & _).
    apply H. right. reflexivity.
Defined.

(** C5 on the demo: tracking set to [-1], and tracking on without any
    gradient. *)
Lemma track_grad_norm_silent_witness :
  _track_grad_norm Demo.quiet Demo.grad_norm Demo.float_of_str Demo.plugin
    Demo.trainer_untracked Demo.store
  = {| result := Returns tt;
       trace := [Entered unit "_track_grad_norm"];
       final := Demo.store |}
  /\ calls_of (trace (_track_grad_norm Demo.quiet Demo.no_grad_norm
                        Demo.float_of_str Demo.plugin Demo.trainer Demo.store))
     = [].
Proof.
  split.
  - pose proof (track_grad_norm_silent Demo.quiet Demo.grad_norm
                  Demo.float_of_str Demo.plugin Demo.trainer_untracked
                  Demo.store) as H.
    cbv zeta in H. destruct H as (_ & H & _). apply H. reflexivity.
  - pose proof (track_grad_norm_silent Demo.quiet Demo.no_grad_norm
                  Demo.float_of_str Demo.plugin Demo.trainer Demo.store) as H.
    cbv zeta in H. destruct H as (_ & _ & H).
    apply (H (S754_finite false 4503599627370496 (-51))
             {| group_separator := "/" |}); reflexivity.
Defined.

(** C10 on the demo: the hook sees ["on_before_optimizer_step"], overwrites
    the attribute, and the tracker puts ["training_step"] back. *)
Lemma track_grad_norm_restores_fx_name_witness :
  current_fx_name
    (final (_track_grad_norm Demo.meddling Demo.grad_norm Demo.float_of_str
              Demo.plugin Demo.trainer Demo.store)) 0
  = Some "training_step"
  /\ current_fx_name
       (set_fx 0 (Some "on_before_optimizer_step") Demo.store) 0
     = Some "on_before_optimizer_step".
Proof.
  pose proof (track_grad_norm_restores_fx_name Demo.meddling Demo.grad_norm
                Demo.float_of_str Demo.plugin Demo.trainer Demo.store) as H.
  cbv zeta in H. destruct H as (Hseen & Hback). split.
  - apply Hback. reflexivity.
  - apply (Hseen [("grad_2.0_norm_total", Demo.two_and_a_half)]).
    right. right. left. reflexivity.
Defined.

(** C7 as stated fails on the demo: with the first optimizer and a model
    whose [log_grad_norm] raises, the call ends with that exception and the
    clip gate is never entered. *)
Lemma clipping_not_reached_when_tracker_raises :
  let r := pre_optimizer_step Demo.failing_log Demo.grad_norm
             Demo.float_of_str Demo.plugin Demo.model Demo.optimizer 0
             Demo.store in
  times_entered "clip_gradients" (trace r) <> 1%nat
  /\ times_entered "clip_gradients" (trace r) = 0%nat
  /\ calls_of (trace r)
     = [LogGradNorm 0 [("grad_2.0_norm_total", Demo.two_and_a_half)]]
  /\ result r = Raises Demo.log_refused.
Proof.
  cbv zeta. split; [|split; [|split]]; try reflexivity.
  intros H. vm_compute in H. discriminate H.
Qed.

(** C7 as amended, on the demo: the second optimizer is clipped without
    tracking; the first is tracked and clipped when the tracker returns, and
    not clipped when it raises. *)
Lemma pre_optimizer_step_invocations_witness :
  times_entered "clip_gradients"
    (trace (pre_optimizer_step Demo.quiet Demo.grad_norm Demo.float_of_str
              Demo.plugin Demo.model Demo.optimizer 1 Demo.store)) = 1%nat
  /\ times_entered "clip_gradients"
       (trace (pre_optimizer_step Demo.quiet Demo.grad_norm Demo.float_of_str
                 Demo.plugin Demo.model Demo.optimizer 0 Demo.store)) = 1%nat
  /\ times_entered "clip_gradients"
       (trace (pre_optimizer_step Demo.failing_log Demo.grad_norm
                 Demo.float_of_str Demo.plugin Demo.model Demo.optimizer 0
                 Demo.store)) = 0%nat.
Proof.
  split; [|split].
  - pose proof (pre_optimizer_step_invocations Demo.quiet Demo.grad_norm
                  Demo.float_of_str Demo.plugin Demo.model Demo.optimizer 1
                  Demo.store) as H.
    cbv zeta in H. destruct H as (_ & H & _). apply H. discriminate.
  - pose proof (pre_optimizer_step_invocations Demo.quiet Demo.grad_norm
                  Demo.float_of_str Demo.plugin Demo.model Demo.optimizer 0
                  Demo.store) as H.
    cbv zeta in H. destruct H as (_ & _ & H & _). apply H; reflexivity.
  - pose proof (pre_optimizer_step_invocations Demo.failing_log Demo.grad_norm
                  Demo.float_of_str Demo.plugin Demo.model Demo.optimizer 0
                  Demo.store) as H.
    cbv zeta in H. destruct H as (_ & _ & _ & H).
    apply (H eq_refl Demo.log_refused). reflexivity.
Defined.

(** X2 on the demo: the object passed first is taken for the model. *)
Lemma backward_swallows_first_extra_argument_witness :
  trace (backward Demo.quiet Demo.plugin (Some DemoHooks.plain_model) 7 None
           [ObjectV 3; Scalar (Int 1)] DemoHooks.keywords Demo.store)
  = [Called (TensorBackward (TensorV 7) [Scalar (Int 1)] DemoHooks.keywords)
       Demo.store].
Proof.
  apply backward_swallows_first_extra_argument.
  - right. exists DemoHooks.plain_model. split; reflexivity.
  - reflexivity.
Defined.

(** X3 on the demo: keyword arguments alone do not help. *)
Lemma backward_without_extra_arguments_raises_witness :
  exists msg,
    backward Demo.quiet Demo.plugin None 7 (Some Demo.optimizer) []
      DemoHooks.keywords Demo.store
    = {| result := Raises (TypeError msg); trace := []; final := Demo.store |}.
Proof.
  apply backward_without_extra_arguments_raises.
  - left. reflexivity.
  - reflexivity.
Defined.


(** X5 on the demo: the logging hook raises and the name set for the report
    stays. *)
Lemma track_grad_norm_failure_witness :
  current_fx_name
    (final (_track_grad_norm Demo.failing_log Demo.grad_norm Demo.float_of_str
              Demo.plugin Demo.trainer Demo.store)) 0
  = Some "on_before_optimizer_step".
Proof.
  destruct (track_grad_norm_failure Demo.failing_log Demo.grad_norm
              Demo.float_of_str Demo.plugin Demo.trainer Demo.store
              (e := Demo.log_refused) eq_refl)
    as [[Hcalls _]|(d & s2 & _ & _ & Hfinal)].
  - discriminate Hcalls.
  - reflexivity.
Defined.

(** X11 on the demo: quiet collaborators, a step that returns. *)
Lemma pre_optimizer_step_keeps_fx_name_witness :
  current_fx_name
    (final (pre_optimizer_step Demo.quiet Demo.grad_norm Demo.float_of_str
              Demo.plugin Demo.model Demo.optimizer 0 Demo.store)) 0
  = Some "training_step".
Proof.
  apply (@pre_optimizer_step_keeps_fx_name unit Demo.quiet Demo.grad_norm
           Demo.float_of_str Demo.plugin Demo.model Demo.optimizer 0
           Demo.store).
  - intros c s m. reflexivity.
  - reflexivity.
Defined.
